(** * o3seespy: command objects of the uniaxial-material and layer catalogues

    A shallow embedding of the constructors in
    [o3seespy/command/uniaxial_material/standard.py],
    [o3seespy/command/uniaxial_material/other.py] and
    [o3seespy/command/layer.py], and the properties of tag allocation,
    parameter encoding and dispatch that follow from them. *)

From Stdlib Require Import ZArith String List.
From Stdlib Require Import PrimFloat SpecFloat FloatOps.
From stdpp Require Import gmap strings list fin_maps.

Local Open Scope Z_scope.
Local Open Scope string_scope.
Local Open Scope list_scope.

(** ** Python values *)

(** What every command object carries once built: the two class attributes
    [op_base_type] and [op_type], the private [_tag] and [_parameters], and
    the instance attributes set by [self.<name> = ...], in assignment order.
    The record is parametric in the value type so that values can nest it. *)
Record OpenSeesObject_ (V : Type) : Type := MkObject {
  op_base_type : string;
  op_type : string;
  _tag : Z;
  _parameters : list V;
  fields : list (string * V)
}.
Arguments MkObject {V} _ _ _ _ _.
Arguments op_base_type {V} _.
Arguments op_type {V} _.
Arguments _tag {V} _.
Arguments _parameters {V} _.
Arguments fields {V} _.

(** The values a constructor argument, an attribute or a token can hold. *)
#[local] Set Warnings "-register-all".
Inductive pyval : Type :=
| PyNone
| PyBool (b : bool)
| PyInt (z : Z)
| PyFloat (f : float)
| PyStr (s : string)
| PyList (l : list pyval)
| PyObj (o : OpenSeesObject_ pyval).

Abbreviation OpenSeesObject := (OpenSeesObject_ pyval).

(** The exceptions.  The first four are the built-in ones the constructors
    can raise through [float], [int], attribute access and unpacking.  The
    last three are the error classes named by the specification; no
    constructor of the catalogue raises them. *)
Inductive exn : Type :=
| TypeError
| ValueError
| OverflowError
| AttributeError (name : string)
| ParameterOrderError
| ReferenceError
| ContextMismatchError.

(** ** The analysis context *)

(** [attrs] holds the integer attributes of the instance that the constructors
    read and write ([osi.n_mat], [osi.n_mats], [osi.mats]); [commands] is what
    the dispatch backend has received so far, oldest first. *)
Record OpenseesInstance : Type := MkOsi {
  attrs : gmap string Z;
  commands : list (list pyval)
}.

(** ** Computations that read and write the context and may raise

    An exception does not roll the context back: the state reached when it
    was raised is returned next to it. *)
Definition M (A : Type) : Type := OpenseesInstance -> (exn + A) * OpenseesInstance.

Definition ret {A} (a : A) : M A := fun osi => (inr a, osi).
Definition raise {A} (e : exn) : M A := fun osi => (inl e, osi).
Definition bind {A B} (m : M A) (k : A -> M B) : M B :=
  fun osi =>
    match m osi with
    | (inr a, osi') => k a osi'
    | (inl e, osi') => (inl e, osi')
    end.

Notation "'let*' x := m 'in' k" := (bind m (fun x => k))
  (at level 10, x name, m at level 200, k at level 200, only parsing).

(** A pure step that may raise. *)
Definition lift {A} (r : exn + A) : M A := fun osi => (r, osi).

(** [osi.<name>] *)
Definition getattr_osi (name : string) : M Z :=
  fun osi =>
    match attrs osi !! name with
    | Some n => (inr n, osi)
    | None => (inl (AttributeError name), osi)
    end.

(** [osi.<name> += 1] *)
Definition incr_osi (name : string) : M unit :=
  fun osi =>
    match attrs osi !! name with
    | Some n => (inr tt, MkOsi (<[name := n + 1]> (attrs osi)) (commands osi))
    | None => (inl (AttributeError name), osi)
    end.

(** Modelled from the spec: [OpenSeesObject.to_process] lives in
    [o3seespy/base_model.py], which is not among the sources.  Section 4.3
    (d) and section 4.5 give its contract: the object hands its encoded
    parameter list to the context's active dispatch backend, which receives
    the token sequence as it is.  The backend is modelled by the sequence of
    lists it has received, and it accepts every list, as the recording
    backend does by contract; an engine that rejects a command is outside
    the model. *)
Definition to_process (parameters : list pyval) : M unit :=
  fun osi => (inr tt, MkOsi (attrs osi) (commands osi ++ [parameters])).

(** Modelled from the spec: the [tag] property of [OpenSeesObject] is declared
    in the same missing file.  The glossary makes the tag the integer
    identity assigned at construction, which the constructors store in
    [_tag]; any other value has no such attribute. *)
Definition tag_of (v : pyval) : exn + Z :=
  match v with
  | PyObj o => inr (_tag o)
  | _ => inl (AttributeError "tag")
  end.

(** ** Built-in coercions *)

Definition float_of_Z (z : Z) : exn + float :=
  match binary_normalize prec emax z 0 false with
  | S754_infinity _ => inl OverflowError
  | sf => inr (SF2Prim sf)
  end.

Definition Z_of_float (f : float) : exn + Z :=
  match Prim2SF f with
  | S754_zero _ => inr 0
  | S754_infinity _ => inl OverflowError
  | S754_nan => inl ValueError
  | S754_finite s m e =>
      let mag := match e with
                 | Zneg k => Z.shiftr (Zpos m) (Zpos k)
                 | _ => Z.shiftl (Zpos m) e
                 end in
      inr (if s then - mag else mag)
  end.

(** [*v]: the elements of an iterable, in order. *)
Definition unpack (v : pyval) : exn + list pyval :=
  match v with
  | PyList l => inr l
  | PyStr s => inr (map (fun c => PyStr (String c EmptyString)) (list_ascii_of_string s))
  | _ => inl TypeError
  end.

(** The text parsers behind [float(str)] and [int(str)] belong to the Python
    runtime, not to the repository; they are an interface of the development,
    [None] standing for the [ValueError] of a string that does not parse. *)
Class PyRuntime : Type := {
  float_of_str : string -> option float;
  int_of_str : string -> option Z
}.

Section Builtins.

Context `{PyRuntime}.

(** [float(v)] *)
Definition py_float (v : pyval) : exn + float :=
  match v with
  | PyFloat f => inr f
  | PyInt z => float_of_Z z
  | PyBool b => inr (if b then 1%float else 0%float)
  | PyStr s => match float_of_str s with Some f => inr f | None => inl ValueError end
  | PyNone | PyList _ | PyObj _ => inl TypeError
  end.

(** [int(v)] *)
Definition py_int (v : pyval) : exn + Z :=
  match v with
  | PyInt z => inr z
  | PyBool b => inr (if b then 1 else 0)
  | PyFloat f => Z_of_float f
  | PyStr s => match int_of_str s with Some z => inr z | None => inl ValueError end
  | PyNone | PyList _ | PyObj _ => inl TypeError
  end.

(** The guarded coercion of an optional field:
    [if v is None: self.x = None else: self.x = float(v)]. *)
Definition py_float_opt (v : pyval) : exn + pyval :=
  match v with
  | PyNone => inr PyNone
  | _ => match py_float v with inr f => inr (PyFloat f) | inl e => inl e end
  end.

(** ** Shared shapes of the constructor bodies *)

(** [for i, pm in enumerate(special_pms):] with an [else: break] branch, as
    in [Cast], [ElasticBilin] and [SelfCentering]: a field that is [None] ends
    the loop.  A list entry is a field's stored value with its [packets] bit. *)
Fixpoint special_pms_break (pms : list (pyval * bool)) (parameters : list pyval)
  : exn + list pyval :=
  match pms with
  | [] => inr parameters
  | (PyNone, _) :: _ => inr parameters
  | (v, false) :: rest => special_pms_break rest (parameters ++ [v])
  | (v, true) :: rest =>
      match unpack v with
      | inr l => special_pms_break rest (parameters ++ l)
      | inl e => inl e
      end
  end.

(** The same loop without the [else: break] branch, as in [standard.py]: a
    field that is [None] is passed over and the loop goes on. *)
Fixpoint special_pms_skip (pms : list (pyval * bool)) (parameters : list pyval)
  : exn + list pyval :=
  match pms with
  | [] => inr parameters
  | (PyNone, _) :: rest => special_pms_skip rest parameters
  | (v, false) :: rest => special_pms_skip rest (parameters ++ [v])
  | (v, true) :: rest =>
      match unpack v with
      | inr l => special_pms_skip rest (parameters ++ l)
      | inl e => inl e
      end
  end.

(** [if getattr(self, 'x') is not None: self._parameters += ['-flag', self.x]] *)
Definition flag_value (flag : string) (v : pyval) : list pyval :=
  match v with
  | PyNone => []
  | _ => [PyStr flag; v]
  end.

(** [if getattr(self, 'x') is not None: self._parameters += ['-flag', *self.x]] *)
Definition flag_packet (flag : string) (v : pyval) : exn + list pyval :=
  match v with
  | PyNone => inr []
  | _ => match unpack v with
         | inr l => inr (PyStr flag :: l)
         | inl e => inl e
         end
  end.

(** [if self.x is not None: self._parameters += self.x] *)
Definition extend_opt (v : pyval) : exn + list pyval :=
  match v with
  | PyNone => inr []
  | _ => unpack v
  end.

(** Modelled from the spec: [UniaxialMaterialBase] comes from
    [base_material.py], which is not among the sources; its [op_base_type] is
    the engine command of the "Material (uniaxial)" category of section 3. *)
Definition UniaxialMaterialBase_op_base_type : string := "uniaxialMaterial".

(** [LayerBase.op_base_type] *)
Definition LayerBase_op_base_type : string := "layer".

(** ** standard.py *)

(** Modelled from the spec: [Elastic] declares no [op_type] of its own in
    [standard.py]; section 8 gives the literal the class is expected to
    emit. *)
Definition Elastic_op_type : string := "Elastic".

(** [Elastic.__init__(self, osi, big_e, eta=0.0, eneg=None)] *)
Definition Elastic_init (big_e eta eneg : pyval) : M OpenSeesObject :=
  let* big_e := lift (py_float big_e) in
  let* eta := lift (py_float eta) in
  let* eneg := lift (py_float eneg) in
  let* _ := incr_osi "n_mats" in
  let* tag := getattr_osi "mats" in
  let parameters := [PyStr Elastic_op_type; PyInt tag; PyFloat big_e; PyFloat eta] in
  let* parameters := lift (special_pms_skip [(PyFloat eneg, false)] parameters) in
  let* _ := to_process parameters in
  ret (MkObject UniaxialMaterialBase_op_base_type Elastic_op_type tag parameters
         [("big_e", PyFloat big_e); ("eta", PyFloat eta); ("eneg", PyFloat eneg)]).

(** ** other.py *)

(** [Hardening.__init__(self, osi, big_e, sigma_y, h_iso, h_kin, eta=0.0)] *)
Definition Hardening_init (big_e sigma_y h_iso h_kin eta : pyval) : M OpenSeesObject :=
  let* big_e := lift (py_float big_e) in
  let* sigma_y := lift (py_float sigma_y) in
  let* h_iso := lift (py_float h_iso) in
  let* h_kin := lift (py_float h_kin) in
  let* eta := lift (py_float eta) in
  let* _ := incr_osi "n_mat" in
  let* tag := getattr_osi "n_mat" in
  let parameters := [PyStr "Hardening"; PyInt tag; PyFloat big_e; PyFloat sigma_y;
                     PyFloat h_iso; PyFloat h_kin; PyFloat eta] in
  let* _ := to_process parameters in
  ret (MkObject UniaxialMaterialBase_op_base_type "Hardening" tag parameters
         [("big_e", PyFloat big_e); ("sigma_y", PyFloat sigma_y); ("h_iso", PyFloat h_iso);
          ("h_kin", PyFloat h_kin); ("eta", PyFloat eta)]).

(** [Cast.__init__(self, osi, n, bo, h, fy, big_e, big_l, b, ro, c_r1, c_r2,
    a1=None, a2=1.0, a3=None, a4=1.0)] *)
Definition Cast_init (n bo h fy big_e big_l b ro c_r1 c_r2 a1 a2 a3 a4 : pyval)
  : M OpenSeesObject :=
  let* n := lift (py_int n) in
  let* bo := lift (py_float bo) in
  let* h := lift (py_float h) in
  let* fy := lift (py_float fy) in
  let* big_e := lift (py_float big_e) in
  let* big_l := lift (py_float big_l) in
  let* b := lift (py_float b) in
  let* ro := lift (py_float ro) in
  let* c_r1 := lift (py_float c_r1) in
  let* c_r2 := lift (py_float c_r2) in
  let* a1 := lift (py_float_opt a1) in
  let* a2 := lift (py_float a2) in
  let* a3 := lift (py_float_opt a3) in
  let* a4 := lift (py_float a4) in
  let* _ := incr_osi "n_mat" in
  let* tag := getattr_osi "n_mat" in
  let parameters := [PyStr "Cast"; PyInt tag; PyInt n; PyFloat bo; PyFloat h; PyFloat fy;
                     PyFloat big_e; PyFloat big_l; PyFloat b; PyFloat ro; PyFloat c_r1;
                     PyFloat c_r2] in
  let* parameters := lift (special_pms_break
                           [(a1, false); (PyFloat a2, false); (a3, false); (PyFloat a4, false)]
                           parameters) in
  let* _ := to_process parameters in
  ret (MkObject UniaxialMaterialBase_op_base_type "Cast" tag parameters
         [("n", PyInt n); ("bo", PyFloat bo); ("h", PyFloat h); ("fy", PyFloat fy);
          ("big_e", PyFloat big_e); ("big_l", PyFloat big_l); ("b", PyFloat b);
          ("ro", PyFloat ro); ("c_r1", PyFloat c_r1); ("c_r2", PyFloat c_r2);
          ("a1", a1); ("a2", PyFloat a2); ("a3", a3); ("a4", PyFloat a4)]).

(** [SAWS.__init__(self, osi, f0, fi, du, s0, r1, r2, r3, r4, alpha, beta)] *)
Definition SAWS_init (f0 fi du s0 r1 r2 r3 r4 alpha beta : pyval) : M OpenSeesObject :=
  let* f0 := lift (py_float f0) in
  let* fi := lift (py_float fi) in
  let* du := lift (py_float du) in
  let* s0 := lift (py_float s0) in
  let* r1 := lift (py_float r1) in
  let* r2 := lift (py_float r2) in
  let* r3 := lift (py_float r3) in
  let* r4 := lift (py_float r4) in
  let* alpha := lift (py_float alpha) in
  let* beta := lift (py_float beta) in
  let* _ := incr_osi "n_mat" in
  let* tag := getattr_osi "n_mat" in
  let parameters := [PyStr "SAWS"; PyInt tag; PyFloat f0; PyFloat fi; PyFloat du; PyFloat s0;
                     PyFloat r1; PyFloat r2; PyFloat r3; PyFloat r4; PyFloat alpha;
                     PyFloat beta] in
  let* _ := to_process parameters in
  ret (MkObject UniaxialMaterialBase_op_base_type "SAWS" tag parameters
         [("f0", PyFloat f0); ("fi", PyFloat fi); ("du", PyFloat du); ("s0", PyFloat s0);
          ("r1", PyFloat r1); ("r2", PyFloat r2); ("r3", PyFloat r3); ("r4", PyFloat r4);
          ("alpha", PyFloat alpha); ("beta", PyFloat beta)]).

(** [BondSP01.__init__(self, osi, fy, sy, fu, su, b, big_r)] *)
Definition BondSP01_init (fy sy fu su b big_r : pyval) : M OpenSeesObject :=
  let* fy := lift (py_float fy) in
  let* sy := lift (py_float sy) in
  let* fu := lift (py_float fu) in
  let* su := lift (py_float su) in
  let* b := lift (py_float b) in
  let* big_r := lift (py_float big_r) in
  let* _ := incr_osi "n_mat" in
  let* tag := getattr_osi "n_mat" in
  let parameters := [PyStr "Bond_SP01"; PyInt tag; PyFloat fy; PyFloat sy; PyFloat fu;
                     PyFloat su; PyFloat b; PyFloat big_r] in
  let* _ := to_process parameters in
  ret (MkObject UniaxialMaterialBase_op_base_type "Bond_SP01" tag parameters
         [("fy", PyFloat fy); ("sy", PyFloat sy); ("fu", PyFloat fu); ("su", PyFloat su);
          ("b", PyFloat b); ("big_r", PyFloat big_r)]).

(** [Fatigue.__init__(self, osi, other, e0=None, m=None, min=None, max=None)] *)
Definition Fatigue_init (other e0 m min max : pyval) : M OpenSeesObject :=
  let* e0 := lift (py_float_opt e0) in
  let* m := lift (py_float_opt m) in
  let* min := lift (py_float_opt min) in
  let* max := lift (py_float_opt max) in
  let* _ := incr_osi "n_mat" in
  let* tag := getattr_osi "n_mat" in
  let* other_tag := lift (tag_of other) in
  let parameters := [PyStr "Fatigue"; PyInt tag; PyInt other_tag] in
  let parameters := parameters ++ flag_value "-E0" e0 in
  let parameters := parameters ++ flag_value "-m" m in
  let parameters := parameters ++ flag_value "-min" min in
  let parameters := parameters ++ flag_value "-max" max in
  let* _ := to_process parameters in
  ret (MkObject UniaxialMaterialBase_op_base_type "Fatigue" tag parameters
         [("other", other); ("e0", e0); ("m", m); ("min", min); ("max", max)]).

(** [LimitState.__init__(self, osi, s1p, e1p, s2p, e2p, s3p, e3p, s1n, e1n,
    s2n, e2n, s3n, e3n, pinch_x, pinch_y, damage1, damage2, beta, curve,
    curve_type)] *)
Definition LimitState_init
  (s1p e1p s2p e2p s3p e3p s1n e1n s2n e2n s3n e3n pinch_x pinch_y damage1 damage2
   beta curve curve_type : pyval) : M OpenSeesObject :=
  let* s1p := lift (py_float s1p) in
  let* e1p := lift (py_float e1p) in
  let* s2p := lift (py_float s2p) in
  let* e2p := lift (py_float e2p) in
  let* s3p := lift (py_float s3p) in
  let* e3p := lift (py_float e3p) in
  let* s1n := lift (py_float s1n) in
  let* e1n := lift (py_float e1n) in
  let* s2n := lift (py_float s2n) in
  let* e2n := lift (py_float e2n) in
  let* s3n := lift (py_float s3n) in
  let* e3n := lift (py_float e3n) in
  let* pinch_x := lift (py_float pinch_x) in
  let* pinch_y := lift (py_float pinch_y) in
  let* damage1 := lift (py_float damage1) in
  let* damage2 := lift (py_float damage2) in
  let* beta := lift (py_float beta) in
  let* curve_type := lift (py_int curve_type) in
  let* _ := incr_osi "n_mat" in
  let* tag := getattr_osi "n_mat" in
  let* curve_tag := lift (tag_of curve) in
  let parameters := [PyStr "LimitState"; PyInt tag; PyFloat s1p; PyFloat e1p; PyFloat s2p;
                     PyFloat e2p; PyFloat s3p; PyFloat e3p; PyFloat s1n; PyFloat e1n;
                     PyFloat s2n; PyFloat e2n; PyFloat s3n; PyFloat e3n; PyFloat pinch_x;
                     PyFloat pinch_y; PyFloat damage1; PyFloat damage2; PyFloat beta;
                     PyInt curve_tag; PyInt curve_type] in
  let* _ := to_process parameters in
  ret (MkObject UniaxialMaterialBase_op_base_type "LimitState" tag parameters
         [("s1p", PyFloat s1p); ("e1p", PyFloat e1p); ("s2p", PyFloat s2p);
          ("e2p", PyFloat e2p); ("s3p", PyFloat s3p); ("e3p", PyFloat e3p);
          ("s1n", PyFloat s1n); ("e1n", PyFloat e1n); ("s2n", PyFloat s2n);
          ("e2n", PyFloat e2n); ("s3n", PyFloat s3n); ("e3n", PyFloat e3n);
          ("pinch_x", PyFloat pinch_x); ("pinch_y", PyFloat pinch_y);
          ("damage1", PyFloat damage1); ("damage2", PyFloat damage2);
          ("beta", PyFloat beta); ("curve", curve); ("curve_type", PyInt curve_type)]).

(** [MinMax.__init__(self, osi, other, min_strain=None, max_strain=None)] *)
Definition MinMax_init (other min_strain max_strain : pyval) : M OpenSeesObject :=
  let* min_strain := lift (py_float_opt min_strain) in
  let* max_strain := lift (py_float_opt max_strain) in
  let* _ := incr_osi "n_mat" in
  let* tag := getattr_osi "n_mat" in
  let* other_tag := lift (tag_of other) in
  let parameters := [PyStr "MinMax"; PyInt tag; PyInt other_tag] in
  let parameters := parameters ++ flag_value "-min" min_strain in
  let parameters := parameters ++ flag_value "-max" max_strain in
  let* _ := to_process parameters in
  ret (MkObject UniaxialMaterialBase_op_base_type "MinMax" tag parameters
         [("other", other); ("min_strain", min_strain); ("max_strain", max_strain)]).

(** [ElasticMultiLinear.__init__(self, osi, eta=0.0, strain=None, stress=None)] *)
Definition ElasticMultiLinear_init (eta strain stress : pyval) : M OpenSeesObject :=
  let* eta := lift (py_float eta) in
  let* _ := incr_osi "n_mat" in
  let* tag := getattr_osi "n_mat" in
  let parameters := [PyStr "ElasticMultiLinear"; PyInt tag; PyFloat eta] in
  let* strain_block := lift (flag_packet "-strain" strain) in
  let parameters := parameters ++ strain_block in
  let* stress_block := lift (flag_packet "-stress" stress) in
  let parameters := parameters ++ stress_block in
  let* _ := to_process parameters in
  ret (MkObject UniaxialMaterialBase_op_base_type "ElasticMultiLinear" tag parameters
         [("eta", PyFloat eta); ("strain", strain); ("stress", stress)]).

(** [PathIndependent.__init__(self, osi, other)] *)
Definition PathIndependent_init (other : pyval) : M OpenSeesObject :=
  let* _ := incr_osi "n_mat" in
  let* tag := getattr_osi "n_mat" in
  let* other_tag := lift (tag_of other) in
  let parameters := [PyStr "PathIndependent"; PyInt tag; PyInt other_tag] in
  let* _ := to_process parameters in
  ret (MkObject UniaxialMaterialBase_op_base_type "PathIndependent" tag parameters
         [("other", other)]).

(** ** layer.py *)

(** [Straight.__init__(self, osi, num_fiber, area_fiber, start, end)] *)
Definition Straight_init (num_fiber area_fiber start end_ : pyval) : M OpenSeesObject :=
  let* num_fiber := lift (py_int num_fiber) in
  let* area_fiber := lift (py_float area_fiber) in
  let* _ := incr_osi "n_mat" in
  let* tag := getattr_osi "n_mat" in
  let* start_items := lift (unpack start) in
  let* end_items := lift (unpack end_) in
  let parameters := [PyStr "straight"; PyInt tag; PyInt num_fiber; PyFloat area_fiber]
                      ++ start_items ++ end_items in
  let* _ := to_process parameters in
  ret (MkObject LayerBase_op_base_type "straight" tag parameters
         [("num_fiber", PyInt num_fiber); ("area_fiber", PyFloat area_fiber);
          ("start", start); ("end", end_)]).

(** [Circ.__init__(self, osi, num_fiber, area_fiber, center, radius, ang=None)] *)
Definition Circ_init (num_fiber area_fiber center radius ang : pyval) : M OpenSeesObject :=
  let* num_fiber := lift (py_int num_fiber) in
  let* area_fiber := lift (py_float area_fiber) in
  let* radius := lift (py_float radius) in
  let* _ := incr_osi "n_mat" in
  let* tag := getattr_osi "n_mat" in
  let* center_items := lift (unpack center) in
  let parameters := [PyStr "circ"; PyInt tag; PyInt num_fiber; PyFloat area_fiber]
                      ++ center_items ++ [PyFloat radius] in
  let* ang_items := lift (extend_opt ang) in
  let parameters := parameters ++ ang_items in
  let* _ := to_process parameters in
  ret (MkObject LayerBase_op_base_type "circ" tag parameters
         [("num_fiber", PyInt num_fiber); ("area_fiber", PyFloat area_fiber);
          ("center", center); ("radius", PyFloat radius); ("ang", ang)]).

(** ** Constructor calls *)

(** One constructor call of the catalogue: the class and its arguments after
    [osi], defaults filled in by the caller. *)
Inductive command : Type :=
| Elastic (big_e eta eneg : pyval)
| Hardening (big_e sigma_y h_iso h_kin eta : pyval)
| Cast (n bo h fy big_e big_l b ro c_r1 c_r2 a1 a2 a3 a4 : pyval)
| SAWS (f0 fi du s0 r1 r2 r3 r4 alpha beta : pyval)
| BondSP01 (fy sy fu su b big_r : pyval)
| Fatigue (other e0 m min max : pyval)
| LimitState (s1p e1p s2p e2p s3p e3p s1n e1n s2n e2n s3n e3n pinch_x pinch_y
              damage1 damage2 beta curve curve_type : pyval)
| MinMax (other min_strain max_strain : pyval)
| ElasticMultiLinear (eta strain stress : pyval)
| PathIndependent (other : pyval)
| Straight (num_fiber area_fiber start end_ : pyval)
| Circ (num_fiber area_fiber center radius ang : pyval).

(** Running a call against the context. *)
Definition construct (c : command) : M OpenSeesObject :=
  match c with
  | Elastic big_e eta eneg => Elastic_init big_e eta eneg
  | Hardening big_e sigma_y h_iso h_kin eta => Hardening_init big_e sigma_y h_iso h_kin eta
  | Cast n bo h fy big_e big_l b ro c_r1 c_r2 a1 a2 a3 a4 =>
      Cast_init n bo h fy big_e big_l b ro c_r1 c_r2 a1 a2 a3 a4
  | SAWS f0 fi du s0 r1 r2 r3 r4 alpha beta => SAWS_init f0 fi du s0 r1 r2 r3 r4 alpha beta
  | BondSP01 fy sy fu su b big_r => BondSP01_init fy sy fu su b big_r
  | Fatigue other e0 m min max => Fatigue_init other e0 m min max
  | LimitState s1p e1p s2p e2p s3p e3p s1n e1n s2n e2n s3n e3n pinch_x pinch_y
               damage1 damage2 beta curve curve_type =>
      LimitState_init s1p e1p s2p e2p s3p e3p s1n e1n s2n e2n s3n e3n pinch_x pinch_y
                      damage1 damage2 beta curve curve_type
  | MinMax other min_strain max_strain => MinMax_init other min_strain max_strain
  | ElasticMultiLinear eta strain stress => ElasticMultiLinear_init eta strain stress
  | PathIndependent other => PathIndependent_init other
  | Straight num_fiber area_fiber start end_ => Straight_init num_fiber area_fiber start end_
  | Circ num_fiber area_fiber center radius ang =>
      Circ_init num_fiber area_fiber center radius ang
  end.

(** A coercion's outcome as the token it stores. *)
Definition as_float (v : pyval) : exn + pyval :=
  match py_float v with inr f => inr (PyFloat f) | inl e => inl e end.
Definition as_int (v : pyval) : exn + pyval :=
  match py_int v with inr z => inr (PyInt z) | inl e => inl e end.

(** The [float(...)] and [int(...)] calls of each constructor, in the order
    its body makes them. *)
Definition coercions (c : command) : list (exn + pyval) :=
  match c with
  | Elastic big_e eta eneg => map as_float [big_e; eta; eneg]
  | Hardening big_e sigma_y h_iso h_kin eta => map as_float [big_e; sigma_y; h_iso; h_kin; eta]
  | Cast n bo h fy big_e big_l b ro c_r1 c_r2 a1 a2 a3 a4 =>
      as_int n :: map as_float [bo; h; fy; big_e; big_l; b; ro; c_r1; c_r2]
        ++ [py_float_opt a1; as_float a2; py_float_opt a3; as_float a4]
  | SAWS f0 fi du s0 r1 r2 r3 r4 alpha beta =>
      map as_float [f0; fi; du; s0; r1; r2; r3; r4; alpha; beta]
  | BondSP01 fy sy fu su b big_r => map as_float [fy; sy; fu; su; b; big_r]
  | Fatigue _ e0 m min max => map py_float_opt [e0; m; min; max]
  | LimitState s1p e1p s2p e2p s3p e3p s1n e1n s2n e2n s3n e3n pinch_x pinch_y
               damage1 damage2 beta _ curve_type =>
      map as_float [s1p; e1p; s2p; e2p; s3p; e3p; s1n; e1n; s2n; e2n; s3n; e3n;
                    pinch_x; pinch_y; damage1; damage2; beta]
        ++ [as_int curve_type]
  | MinMax _ min_strain max_strain => map py_float_opt [min_strain; max_strain]
  | ElasticMultiLinear eta _ _ => [as_float eta]
  | PathIndependent _ => []
  | Straight num_fiber area_fiber _ _ => [as_int num_fiber; as_float area_fiber]
  | Circ num_fiber area_fiber _ radius _ =>
      [as_int num_fiber; as_float area_fiber; as_float radius]
  end.

(** The counter attribute a constructor increments. *)
Definition counter_of (c : command) : string :=
  match c with
  | Elastic _ _ _ => "n_mats"
  | _ => "n_mat"
  end.

(** A construction script: each step builds its call from the objects
    constructed so far, so that a later object can refer to an earlier one. *)
Fixpoint run_script (steps : list (list OpenSeesObject -> command))
    (built : list OpenSeesObject) : M (list OpenSeesObject) :=
  match steps with
  | [] => ret built
  | step :: rest =>
      let* o := construct (step built) in
      run_script rest (built ++ [o])
  end.

End Builtins.

(** Outcomes in order, up to the first exception. *)
Fixpoint sequence {A} (rs : list (exn + A)) : exn + list A :=
  match rs with
  | [] => inr []
  | inl e :: _ => inl e
  | inr a :: rest =>
      match sequence rest with
      | inr l => inr (a :: l)
      | inl e => inl e
      end
  end.

(** Modelled from the spec: [OpenseesInstance.__init__] is not among the
    sources.  Sections 3 and 4.1 give a fresh context one integer counter per
    category, from which the first tag minted is 1, and a backend that has
    received nothing.  The counters are the attributes the constructors reach
    for: [n_mat] ([other.py], [layer.py]), [n_mats] and [mats]
    ([standard.py]). *)
Definition OpenseesInstance_init : OpenseesInstance :=
  MkOsi (list_to_map [("n_mat", 0); ("n_mats", 0); ("mats", 0)]) [].

(** A runtime whose parsers accept no text: the closed examples below coerce
    numbers and [None] only, never strings. *)
Definition no_text_runtime : PyRuntime :=
  {| float_of_str := fun _ => None; int_of_str := fun _ => None |}.

(** An optional argument as the caller passes it. *)
Definition opt_list (o : option (list pyval)) : pyval :=
  match o with Some l => PyList l | None => PyNone end.
Definition opt_float (o : option float) : pyval :=
  match o with Some f => PyFloat f | None => PyNone end.

(** A flag block as section 4.2 (4) describes it: the marker, then the value
    or the expanded packet; nothing for an absent block. *)
Definition flagged {A} (flag : string) (tokens : A -> list pyval) (o : option A) : list pyval :=
  match o with
  | Some a => PyStr flag :: tokens a
  | None => []
  end.

(** The context after [osi.<name> += 1] when the attribute held [n]. *)
Definition advance (name : string) (n : Z) (osi : OpenseesInstance) : OpenseesInstance :=
  MkOsi (<[name := n + 1]> (attrs osi)) (commands osi).

(** The context after the backend has received one more list. *)
Definition dispatched (parameters : list pyval) (osi : OpenseesInstance) : OpenseesInstance :=
  MkOsi (attrs osi) (commands osi ++ [parameters]).

(** The exceptions a Python built-in raises, as opposed to the error classes
    of the specification. *)
Definition builtin_exn (e : exn) : bool :=
  match e with
  | TypeError | ValueError | OverflowError | AttributeError _ => true
  | ParameterOrderError | ReferenceError | ContextMismatchError => false
  end.

(** The values of a run of trailing optional fields that reach the encoded
    list: those before the first absent one. *)
Fixpoint until_absent (vs : list pyval) : list pyval :=
  match vs with
  | [] => []
  | PyNone :: _ => []
  | v :: rest => v :: until_absent rest
  end.

(** Whether a value is a command object, the only kind of value with a
    [tag]. *)
Definition has_tag (v : pyval) : bool :=
  match v with
  | PyObj _ => true
  | _ => false
  end.

(** * The rest of the catalogue *)

(** The lookup of a class attribute that the class itself does not declare:
    [found] is what the base classes provide. *)
Definition class_attr (name : string) (found : option string) : exn + string :=
  match found with
  | Some s => inr s
  | None => inl (AttributeError name)
  end.

Section Catalogue.

Context `{PyRuntime}.

(** ** The rest of [standard.py] *)

(** [ElasticPP.__init__(self, osi, big_e, epsy_p, epsy_n=None, eps0=0.0)]

    [ElasticPP] declares no [op_type]: the argument [op_type] is what the
    lookup of [self.op_type] finds in the base classes, if anything. *)
Definition ElasticPP_init
  (op_type : option string) (big_e epsy_p epsy_n eps0 : pyval)
  : M OpenSeesObject :=
  let* big_e := lift (py_float big_e) in
  let* epsy_p := lift (py_float epsy_p) in
  let* epsy_n := lift (py_float epsy_n) in
  let* eps0 := lift (py_float eps0) in
  let* _ := incr_osi "n_mats" in
  let* tag := getattr_osi "mats" in
  let* op_type := lift (class_attr "op_type" op_type) in
  let parameters := [PyStr op_type; PyInt tag; PyFloat big_e; PyFloat epsy_p] in
  let* parameters := lift (special_pms_skip [(PyFloat epsy_n, false); (PyFloat eps0, false)] parameters) in
  let* _ := to_process parameters in
  ret (MkObject UniaxialMaterialBase_op_base_type op_type tag parameters
         [("big_e", PyFloat big_e); ("epsy_p", PyFloat epsy_p); ("epsy_n", PyFloat epsy_n);
          ("eps0", PyFloat eps0)]).

(** [ElasticPPGap.__init__(self, osi, big_e, fy, gap, eta=0.0,
    damage='noDamage')]

    [ElasticPPGap] declares no [op_type]: the argument [op_type] is what the
    lookup of [self.op_type] finds in the base classes, if anything. *)
Definition ElasticPPGap_init
  (op_type : option string) (big_e fy gap eta damage : pyval)
  : M OpenSeesObject :=
  let* big_e := lift (py_float big_e) in
  let* fy := lift (py_float fy) in
  let* gap := lift (py_float gap) in
  let* eta := lift (py_float eta) in
  let* _ := incr_osi "n_mats" in
  let* tag := getattr_osi "mats" in
  let* op_type := lift (class_attr "op_type" op_type) in
  let parameters := [PyStr op_type; PyInt tag; PyFloat big_e; PyFloat fy; PyFloat gap;
                       PyFloat eta; damage] in
  let* _ := to_process parameters in
  ret (MkObject UniaxialMaterialBase_op_base_type op_type tag parameters
         [("big_e", PyFloat big_e); ("fy", PyFloat fy); ("gap", PyFloat gap);
          ("eta", PyFloat eta); ("damage", damage)]).

(** [ENT.__init__(self, osi, big_e)]

    [ENT] declares no [op_type]: the argument [op_type] is what the
    lookup of [self.op_type] finds in the base classes, if anything. *)
Definition ENT_init (op_type : option string) (big_e : pyval) : M OpenSeesObject :=
  let* big_e := lift (py_float big_e) in
  let* _ := incr_osi "n_mats" in
  let* tag := getattr_osi "mats" in
  let* op_type := lift (class_attr "op_type" op_type) in
  let parameters := [PyStr op_type; PyInt tag; PyFloat big_e] in
  let* _ := to_process parameters in
  ret (MkObject UniaxialMaterialBase_op_base_type op_type tag parameters
         [("big_e", PyFloat big_e)]).

(** [Parallel.__init__(self, osi, tags, factor_args=None)]

    [Parallel] declares no [op_type]: the argument [op_type] is what the
    lookup of [self.op_type] finds in the base classes, if anything. *)
Definition Parallel_init
  (op_type : option string) (tags factor_args : pyval)
  : M OpenSeesObject :=
  let* _ := incr_osi "n_mats" in
  let* tag := getattr_osi "mats" in
  let* op_type := lift (class_attr "op_type" op_type) in
  let* tags_items := lift (unpack tags) in
  let parameters := [PyStr op_type; PyInt tag] ++ tags_items in
  let* factor_args_block := lift (flag_packet "-factor" factor_args) in
  let parameters := parameters ++ factor_args_block in
  let* _ := to_process parameters in
  ret (MkObject UniaxialMaterialBase_op_base_type op_type tag parameters
         [("tags", tags); ("factor_args", factor_args)]).

(** [Series.__init__(self, osi, tags)]

    [Series] declares no [op_type]: the argument [op_type] is what the
    lookup of [self.op_type] finds in the base classes, if anything. *)
Definition Series_init (op_type : option string) (tags : pyval) : M OpenSeesObject :=
  let* _ := incr_osi "n_mats" in
  let* tag := getattr_osi "mats" in
  let* op_type := lift (class_attr "op_type" op_type) in
  let* tags_items := lift (unpack tags) in
  let parameters := [PyStr op_type; PyInt tag] ++ tags_items in
  let* _ := to_process parameters in
  ret (MkObject UniaxialMaterialBase_op_base_type op_type tag parameters
         [("tags", tags)]).

(** ** The rest of [other.py] *)

(** [ViscousDamper.__init__(self, osi, big_k, cd, alpha, l_gap=0.0, nm=1,
    rel_tol=1e-06, abs_tol=1e-10, max_half=15)] *)
Definition ViscousDamper_init
  (big_k cd alpha l_gap nm rel_tol abs_tol max_half : pyval)
  : M OpenSeesObject :=
  let* big_k := lift (py_float big_k) in
  let* cd := lift (py_float cd) in
  let* alpha := lift (py_float alpha) in
  let* l_gap := lift (py_float l_gap) in
  let* nm := lift (py_int nm) in
  let* rel_tol := lift (py_float rel_tol) in
  let* abs_tol := lift (py_float abs_tol) in
  let* max_half := lift (py_int max_half) in
  let* _ := incr_osi "n_mat" in
  let* tag := getattr_osi "n_mat" in
  let parameters := [PyStr "ViscousDamper"; PyInt tag; PyFloat big_k; PyFloat cd;
                       PyFloat alpha; PyFloat l_gap; PyInt nm; PyFloat rel_tol;
                       PyFloat abs_tol; PyInt max_half] in
  let* _ := to_process parameters in
  ret (MkObject UniaxialMaterialBase_op_base_type "ViscousDamper" tag parameters
         [("big_k", PyFloat big_k); ("cd", PyFloat cd); ("alpha", PyFloat alpha);
          ("l_gap", PyFloat l_gap); ("nm", PyInt nm); ("rel_tol", PyFloat rel_tol);
          ("abs_tol", PyFloat abs_tol); ("max_half", PyInt max_half)]).

(** [BilinearOilDamper.__init__(self, osi, big_k, cd, fr=1.0, p=1.0,
    l_gap=0.0, nm=1, rel_tol=1e-06, abs_tol=1e-10, max_half=15)] *)
Definition BilinearOilDamper_init
  (big_k cd fr p l_gap nm rel_tol abs_tol max_half : pyval)
  : M OpenSeesObject :=
  let* big_k := lift (py_float big_k) in
  let* cd := lift (py_float cd) in
  let* fr := lift (py_float fr) in
  let* p := lift (py_float p) in
  let* l_gap := lift (py_float l_gap) in
  let* nm := lift (py_int nm) in
  let* rel_tol := lift (py_float rel_tol) in
  let* abs_tol := lift (py_float abs_tol) in
  let* max_half := lift (py_int max_half) in
  let* _ := incr_osi "n_mat" in
  let* tag := getattr_osi "n_mat" in
  let parameters := [PyStr "BilinearOilDamper"; PyInt tag; PyFloat big_k; PyFloat cd;
                       PyFloat fr; PyFloat p; PyFloat l_gap; PyInt nm; PyFloat rel_tol;
                       PyFloat abs_tol; PyInt max_half] in
  let* _ := to_process parameters in
  ret (MkObject UniaxialMaterialBase_op_base_type "BilinearOilDamper" tag parameters
         [("big_k", PyFloat big_k); ("cd", PyFloat cd); ("fr", PyFloat fr); ("p", PyFloat p);
          ("l_gap", PyFloat l_gap); ("nm", PyInt nm); ("rel_tol", PyFloat rel_tol);
          ("abs_tol", PyFloat abs_tol); ("max_half", PyInt max_half)]).

(** [Bilin.__init__(self, osi, k0, as__plus, as__neg, my__plus, my__neg,
    lamda_s, lamda_c, lamda_a, lamda_k, c_s, c_c, c_a, c_k, theta_p__plus,
    theta_p__neg, theta_pc__plus, theta_pc__neg, res__pos, res__neg,
    theta_u__plus, theta_u__neg, d__plus, d__neg, n_factor=0.0)] *)
Definition Bilin_init
  (k0 as__plus as__neg my__plus my__neg lamda_s lamda_c lamda_a lamda_k c_s c_c c_a c_k
   theta_p__plus theta_p__neg theta_pc__plus theta_pc__neg res__pos res__neg theta_u__plus
   theta_u__neg d__plus d__neg n_factor : pyval)
  : M OpenSeesObject :=
  let* k0 := lift (py_float k0) in
  let* as__plus := lift (py_float as__plus) in
  let* as__neg := lift (py_float as__neg) in
  let* my__plus := lift (py_float my__plus) in
  let* my__neg := lift (py_float my__neg) in
  let* lamda_s := lift (py_float lamda_s) in
  let* lamda_c := lift (py_float lamda_c) in
  let* lamda_a := lift (py_float lamda_a) in
  let* lamda_k := lift (py_float lamda_k) in
  let* c_s := lift (py_float c_s) in
  let* c_c := lift (py_float c_c) in
  let* c_a := lift (py_float c_a) in
  let* c_k := lift (py_float c_k) in
  let* theta_p__plus := lift (py_float theta_p__plus) in
  let* theta_p__neg := lift (py_float theta_p__neg) in
  let* theta_pc__plus := lift (py_float theta_pc__plus) in
  let* theta_pc__neg := lift (py_float theta_pc__neg) in
  let* res__pos := lift (py_float res__pos) in
  let* res__neg := lift (py_float res__neg) in
  let* theta_u__plus := lift (py_float theta_u__plus) in
  let* theta_u__neg := lift (py_float theta_u__neg) in
  let* d__plus := lift (py_float d__plus) in
  let* d__neg := lift (py_float d__neg) in
  let* n_factor := lift (py_float n_factor) in
  let* _ := incr_osi "n_mat" in
  let* tag := getattr_osi "n_mat" in
  let parameters := [PyStr "Bilin"; PyInt tag; PyFloat k0; PyFloat as__plus; PyFloat as__neg;
                       PyFloat my__plus; PyFloat my__neg; PyFloat lamda_s; PyFloat lamda_c;
                       PyFloat lamda_a; PyFloat lamda_k; PyFloat c_s; PyFloat c_c;
                       PyFloat c_a; PyFloat c_k; PyFloat theta_p__plus; PyFloat theta_p__neg;
                       PyFloat theta_pc__plus; PyFloat theta_pc__neg; PyFloat res__pos;
                       PyFloat res__neg; PyFloat theta_u__plus; PyFloat theta_u__neg;
                       PyFloat d__plus; PyFloat d__neg; PyFloat n_factor] in
  let* _ := to_process parameters in
  ret (MkObject UniaxialMaterialBase_op_base_type "Bilin" tag parameters
         [("k0", PyFloat k0); ("as__plus", PyFloat as__plus); ("as__neg", PyFloat as__neg);
          ("my__plus", PyFloat my__plus); ("my__neg", PyFloat my__neg);
          ("lamda_s", PyFloat lamda_s); ("lamda_c", PyFloat lamda_c);
          ("lamda_a", PyFloat lamda_a); ("lamda_k", PyFloat lamda_k); ("c_s", PyFloat c_s);
          ("c_c", PyFloat c_c); ("c_a", PyFloat c_a); ("c_k", PyFloat c_k);
          ("theta_p__plus", PyFloat theta_p__plus); ("theta_p__neg", PyFloat theta_p__neg);
          ("theta_pc__plus", PyFloat theta_pc__plus);
          ("theta_pc__neg", PyFloat theta_pc__neg); ("res__pos", PyFloat res__pos);
          ("res__neg", PyFloat res__neg); ("theta_u__plus", PyFloat theta_u__plus);
          ("theta_u__neg", PyFloat theta_u__neg); ("d__plus", PyFloat d__plus);
          ("d__neg", PyFloat d__neg); ("n_factor", PyFloat n_factor)]).

(** [ModIMKPeakOriented.__init__(self, osi, k0, as__plus, as__neg, my__plus,
    my__neg, lamda_s, lamda_c, lamda_a, lamda_k, c_s, c_c, c_a, c_k,
    theta_p__plus, theta_p__neg, theta_pc__plus, theta_pc__neg, res__pos,
    res__neg, theta_u__plus, theta_u__neg, d__plus, d__neg)] *)
Definition ModIMKPeakOriented_init
  (k0 as__plus as__neg my__plus my__neg lamda_s lamda_c lamda_a lamda_k c_s c_c c_a c_k
   theta_p__plus theta_p__neg theta_pc__plus theta_pc__neg res__pos res__neg theta_u__plus
   theta_u__neg d__plus d__neg : pyval)
  : M OpenSeesObject :=
  let* k0 := lift (py_float k0) in
  let* as__plus := lift (py_float as__plus) in
  let* as__neg := lift (py_float as__neg) in
  let* my__plus := lift (py_float my__plus) in
  let* my__neg := lift (py_float my__neg) in
  let* lamda_s := lift (py_float lamda_s) in
  let* lamda_c := lift (py_float lamda_c) in
  let* lamda_a := lift (py_float lamda_a) in
  let* lamda_k := lift (py_float lamda_k) in
  let* c_s := lift (py_float c_s) in
  let* c_c := lift (py_float c_c) in
  let* c_a := lift (py_float c_a) in
  let* c_k := lift (py_float c_k) in
  let* theta_p__plus := lift (py_float theta_p__plus) in
  let* theta_p__neg := lift (py_float theta_p__neg) in
  let* theta_pc__plus := lift (py_float theta_pc__plus) in
  let* theta_pc__neg := lift (py_float theta_pc__neg) in
  let* res__pos := lift (py_float res__pos) in
  let* res__neg := lift (py_float res__neg) in
  let* theta_u__plus := lift (py_float theta_u__plus) in
  let* theta_u__neg := lift (py_float theta_u__neg) in
  let* d__plus := lift (py_float d__plus) in
  let* d__neg := lift (py_float d__neg) in
  let* _ := incr_osi "n_mat" in
  let* tag := getattr_osi "n_mat" in
  let parameters := [PyStr "ModIMKPeakOriented"; PyInt tag; PyFloat k0; PyFloat as__plus;
                       PyFloat as__neg; PyFloat my__plus; PyFloat my__neg; PyFloat lamda_s;
                       PyFloat lamda_c; PyFloat lamda_a; PyFloat lamda_k; PyFloat c_s;
                       PyFloat c_c; PyFloat c_a; PyFloat c_k; PyFloat theta_p__plus;
                       PyFloat theta_p__neg; PyFloat theta_pc__plus; PyFloat theta_pc__neg;
                       PyFloat res__pos; PyFloat res__neg; PyFloat theta_u__plus;
                       PyFloat theta_u__neg; PyFloat d__plus; PyFloat d__neg] in
  let* _ := to_process parameters in
  ret (MkObject UniaxialMaterialBase_op_base_type "ModIMKPeakOriented" tag parameters
         [("k0", PyFloat k0); ("as__plus", PyFloat as__plus); ("as__neg", PyFloat as__neg);
          ("my__plus", PyFloat my__plus); ("my__neg", PyFloat my__neg);
          ("lamda_s", PyFloat lamda_s); ("lamda_c", PyFloat lamda_c);
          ("lamda_a", PyFloat lamda_a); ("lamda_k", PyFloat lamda_k); ("c_s", PyFloat c_s);
          ("c_c", PyFloat c_c); ("c_a", PyFloat c_a); ("c_k", PyFloat c_k);
          ("theta_p__plus", PyFloat theta_p__plus); ("theta_p__neg", PyFloat theta_p__neg);
          ("theta_pc__plus", PyFloat theta_pc__plus);
          ("theta_pc__neg", PyFloat theta_pc__neg); ("res__pos", PyFloat res__pos);
          ("res__neg", PyFloat res__neg); ("theta_u__plus", PyFloat theta_u__plus);
          ("theta_u__neg", PyFloat theta_u__neg); ("d__plus", PyFloat d__plus);
          ("d__neg", PyFloat d__neg)]).

(** [ModIMKPinching.__init__(self, osi, k0, as__plus, as__neg, my__plus,
    my__neg, fpr_pos, fpr_neg, a_pinch, lamda_s, lamda_c, lamda_a, lamda_k, c_s,
    c_c, c_a, c_k, theta_p__plus, theta_p__neg, theta_pc__plus, theta_pc__neg,
    res__pos, res__neg, theta_u__plus, theta_u__neg, d__plus, d__neg)] *)
Definition ModIMKPinching_init
  (k0 as__plus as__neg my__plus my__neg fpr_pos fpr_neg a_pinch lamda_s lamda_c lamda_a
   lamda_k c_s c_c c_a c_k theta_p__plus theta_p__neg theta_pc__plus theta_pc__neg res__pos
   res__neg theta_u__plus theta_u__neg d__plus d__neg : pyval)
  : M OpenSeesObject :=
  let* k0 := lift (py_float k0) in
  let* as__plus := lift (py_float as__plus) in
  let* as__neg := lift (py_float as__neg) in
  let* my__plus := lift (py_float my__plus) in
  let* my__neg := lift (py_float my__neg) in
  let* fpr_pos := lift (py_float fpr_pos) in
  let* fpr_neg := lift (py_float fpr_neg) in
  let* a_pinch := lift (py_float a_pinch) in
  let* lamda_s := lift (py_float lamda_s) in
  let* lamda_c := lift (py_float lamda_c) in
  let* lamda_a := lift (py_float lamda_a) in
  let* lamda_k := lift (py_float lamda_k) in
  let* c_s := lift (py_float c_s) in
  let* c_c := lift (py_float c_c) in
  let* c_a := lift (py_float c_a) in
  let* c_k := lift (py_float c_k) in
  let* theta_p__plus := lift (py_float theta_p__plus) in
  let* theta_p__neg := lift (py_float theta_p__neg) in
  let* theta_pc__plus := lift (py_float theta_pc__plus) in
  let* theta_pc__neg := lift (py_float theta_pc__neg) in
  let* res__pos := lift (py_float res__pos) in
  let* res__neg := lift (py_float res__neg) in
  let* theta_u__plus := lift (py_float theta_u__plus) in
  let* theta_u__neg := lift (py_float theta_u__neg) in
  let* d__plus := lift (py_float d__plus) in
  let* d__neg := lift (py_float d__neg) in
  let* _ := incr_osi "n_mat" in
  let* tag := getattr_osi "n_mat" in
  let parameters := [PyStr "ModIMKPinching"; PyInt tag; PyFloat k0; PyFloat as__plus;
                       PyFloat as__neg; PyFloat my__plus; PyFloat my__neg; PyFloat fpr_pos;
                       PyFloat fpr_neg; PyFloat a_pinch; PyFloat lamda_s; PyFloat lamda_c;
                       PyFloat lamda_a; PyFloat lamda_k; PyFloat c_s; PyFloat c_c;
                       PyFloat c_a; PyFloat c_k; PyFloat theta_p__plus; PyFloat theta_p__neg;
                       PyFloat theta_pc__plus; PyFloat theta_pc__neg; PyFloat res__pos;
                       PyFloat res__neg; PyFloat theta_u__plus; PyFloat theta_u__neg;
                       PyFloat d__plus; PyFloat d__neg] in
  let* _ := to_process parameters in
  ret (MkObject UniaxialMaterialBase_op_base_type "ModIMKPinching" tag parameters
         [("k0", PyFloat k0); ("as__plus", PyFloat as__plus); ("as__neg", PyFloat as__neg);
          ("my__plus", PyFloat my__plus); ("my__neg", PyFloat my__neg);
          ("fpr_pos", PyFloat fpr_pos); ("fpr_neg", PyFloat fpr_neg);
          ("a_pinch", PyFloat a_pinch); ("lamda_s", PyFloat lamda_s);
          ("lamda_c", PyFloat lamda_c); ("lamda_a", PyFloat lamda_a);
          ("lamda_k", PyFloat lamda_k); ("c_s", PyFloat c_s); ("c_c", PyFloat c_c);
          ("c_a", PyFloat c_a); ("c_k", PyFloat c_k);
          ("theta_p__plus", PyFloat theta_p__plus); ("theta_p__neg", PyFloat theta_p__neg);
          ("theta_pc__plus", PyFloat theta_pc__plus);
          ("theta_pc__neg", PyFloat theta_pc__neg); ("res__pos", PyFloat res__pos);
          ("res__neg", PyFloat res__neg); ("theta_u__plus", PyFloat theta_u__plus);
          ("theta_u__neg", PyFloat theta_u__neg); ("d__plus", PyFloat d__plus);
          ("d__neg", PyFloat d__neg)]).

(** [BarSlip.__init__(self, osi, fc, fy, es, fu, eh, db, ld, nb, depth,
    height, bs_flag, otype, anc_lratio=1.0, damage='Damage', unit='psi')] *)
Definition BarSlip_init
  (fc fy es fu eh db ld nb depth height bs_flag otype anc_lratio damage unit : pyval)
  : M OpenSeesObject :=
  let* fc := lift (py_float fc) in
  let* fy := lift (py_float fy) in
  let* es := lift (py_float es) in
  let* fu := lift (py_float fu) in
  let* eh := lift (py_float eh) in
  let* db := lift (py_float db) in
  let* ld := lift (py_float ld) in
  let* nb := lift (py_int nb) in
  let* depth := lift (py_float depth) in
  let* height := lift (py_float height) in
  let* anc_lratio := lift (py_float anc_lratio) in
  let* _ := incr_osi "n_mat" in
  let* tag := getattr_osi "n_mat" in
  let parameters := [PyStr "BarSlip"; PyInt tag; PyFloat fc; PyFloat fy; PyFloat es;
                       PyFloat fu; PyFloat eh; PyFloat db; PyFloat ld; PyInt nb;
                       PyFloat depth; PyFloat height; PyFloat anc_lratio; bs_flag; otype;
                       damage; unit] in
  let* _ := to_process parameters in
  ret (MkObject UniaxialMaterialBase_op_base_type "BarSlip" tag parameters
         [("fc", PyFloat fc); ("fy", PyFloat fy); ("es", PyFloat es); ("fu", PyFloat fu);
          ("eh", PyFloat eh); ("db", PyFloat db); ("ld", PyFloat ld); ("nb", PyInt nb);
          ("depth", PyFloat depth); ("height", PyFloat height);
          ("anc_lratio", PyFloat anc_lratio); ("bs_flag", bs_flag); ("otype", otype);
          ("damage", damage); ("unit", unit)]).

(** [ImpactMaterial.__init__(self, osi, k1, k2, sigy, gap)] *)
Definition ImpactMaterial_init (k1 k2 sigy gap : pyval) : M OpenSeesObject :=
  let* k1 := lift (py_float k1) in
  let* k2 := lift (py_float k2) in
  let* sigy := lift (py_float sigy) in
  let* gap := lift (py_float gap) in
  let* _ := incr_osi "n_mat" in
  let* tag := getattr_osi "n_mat" in
  let parameters := [PyStr "ImpactMaterial"; PyInt tag; PyFloat k1; PyFloat k2; PyFloat sigy;
                       PyFloat gap] in
  let* _ := to_process parameters in
  ret (MkObject UniaxialMaterialBase_op_base_type "ImpactMaterial" tag parameters
         [("k1", PyFloat k1); ("k2", PyFloat k2); ("sigy", PyFloat sigy); ("gap", PyFloat gap)]).

(** [HyperbolicGapMaterial.__init__(self, osi, kmax, kur, rf, fult, gap)] *)
Definition HyperbolicGapMaterial_init (kmax kur rf fult gap : pyval) : M OpenSeesObject :=
  let* kmax := lift (py_float kmax) in
  let* kur := lift (py_float kur) in
  let* rf := lift (py_float rf) in
  let* fult := lift (py_float fult) in
  let* gap := lift (py_float gap) in
  let* _ := incr_osi "n_mat" in
  let* tag := getattr_osi "n_mat" in
  let parameters := [PyStr "HyperbolicGapMaterial"; PyInt tag; PyFloat kmax; PyFloat kur;
                       PyFloat rf; PyFloat fult; PyFloat gap] in
  let* _ := to_process parameters in
  ret (MkObject UniaxialMaterialBase_op_base_type "HyperbolicGapMaterial" tag parameters
         [("kmax", PyFloat kmax); ("kur", PyFloat kur); ("rf", PyFloat rf);
          ("fult", PyFloat fult); ("gap", PyFloat gap)]).

(** [ElasticBilin.__init__(self, osi, ep1, ep2, eps_p2, en1=None, en2=None,
    eps_n2=None)] *)
Definition ElasticBilin_init (ep1 ep2 eps_p2 en1 en2 eps_n2 : pyval) : M OpenSeesObject :=
  let* ep1 := lift (py_float ep1) in
  let* ep2 := lift (py_float ep2) in
  let* eps_p2 := lift (py_float eps_p2) in
  let* en1 := lift (py_float_opt en1) in
  let* en2 := lift (py_float_opt en2) in
  let* eps_n2 := lift (py_float_opt eps_n2) in
  let* _ := incr_osi "n_mat" in
  let* tag := getattr_osi "n_mat" in
  let parameters := [PyStr "ElasticBilin"; PyInt tag; PyFloat ep1; PyFloat ep2; PyFloat eps_p2] in
  let* parameters := lift (special_pms_break [(en1, false); (en2, false); (eps_n2, false)] parameters) in
  let* _ := to_process parameters in
  ret (MkObject UniaxialMaterialBase_op_base_type "ElasticBilin" tag parameters
         [("ep1", PyFloat ep1); ("ep2", PyFloat ep2); ("eps_p2", PyFloat eps_p2);
          ("en1", en1); ("en2", en2); ("eps_n2", eps_n2)]).

(** [MultiLinear.__init__(self, osi, pts)] *)
Definition MultiLinear_init (pts : pyval) : M OpenSeesObject :=
  let* _ := incr_osi "n_mat" in
  let* tag := getattr_osi "n_mat" in
  let* pts_items := lift (unpack pts) in
  let parameters := [PyStr "MultiLinear"; PyInt tag] ++ pts_items in
  let* _ := to_process parameters in
  ret (MkObject UniaxialMaterialBase_op_base_type "MultiLinear" tag parameters
         [("pts", pts)]).

(** [InitStrainMaterial.__init__(self, osi, other, init_strain)] *)
Definition InitStrainMaterial_init (other init_strain : pyval) : M OpenSeesObject :=
  let* init_strain := lift (py_float init_strain) in
  let* _ := incr_osi "n_mat" in
  let* tag := getattr_osi "n_mat" in
  let* other_tag := lift (tag_of other) in
  let parameters := [PyStr "InitStrainMaterial"; PyInt tag; PyInt other_tag;
                       PyFloat init_strain] in
  let* _ := to_process parameters in
  ret (MkObject UniaxialMaterialBase_op_base_type "InitStrainMaterial" tag parameters
         [("other", other); ("init_strain", PyFloat init_strain)]).

(** [InitStressMaterial.__init__(self, osi, other, init_stress)] *)
Definition InitStressMaterial_init (other init_stress : pyval) : M OpenSeesObject :=
  let* init_stress := lift (py_float init_stress) in
  let* _ := incr_osi "n_mat" in
  let* tag := getattr_osi "n_mat" in
  let* other_tag := lift (tag_of other) in
  let parameters := [PyStr "InitStressMaterial"; PyInt tag; PyInt other_tag;
                       PyFloat init_stress] in
  let* _ := to_process parameters in
  ret (MkObject UniaxialMaterialBase_op_base_type "InitStressMaterial" tag parameters
         [("other", other); ("init_stress", PyFloat init_stress)]).

(** [ECC01.__init__(self, osi, sigt0, epst0, sigt1, epst1, epst2, sigc0,
    epsc0, epsc1, alpha_t1, alpha_t2, alpha_c, alpha_cu, beta_t, beta_c)] *)
Definition ECC01_init
  (sigt0 epst0 sigt1 epst1 epst2 sigc0 epsc0 epsc1 alpha_t1 alpha_t2 alpha_c alpha_cu
   beta_t beta_c : pyval)
  : M OpenSeesObject :=
  let* sigt0 := lift (py_float sigt0) in
  let* epst0 := lift (py_float epst0) in
  let* sigt1 := lift (py_float sigt1) in
  let* epst1 := lift (py_float epst1) in
  let* epst2 := lift (py_float epst2) in
  let* sigc0 := lift (py_float sigc0) in
  let* epsc0 := lift (py_float epsc0) in
  let* epsc1 := lift (py_float epsc1) in
  let* alpha_t1 := lift (py_float alpha_t1) in
  let* alpha_t2 := lift (py_float alpha_t2) in
  let* alpha_c := lift (py_float alpha_c) in
  let* alpha_cu := lift (py_float alpha_cu) in
  let* beta_t := lift (py_float beta_t) in
  let* beta_c := lift (py_float beta_c) in
  let* _ := incr_osi "n_mat" in
  let* tag := getattr_osi "n_mat" in
  let parameters := [PyStr "ECC01"; PyInt tag; PyFloat sigt0; PyFloat epst0; PyFloat sigt1;
                       PyFloat epst1; PyFloat epst2; PyFloat sigc0; PyFloat epsc0;
                       PyFloat epsc1; PyFloat alpha_t1; PyFloat alpha_t2; PyFloat alpha_c;
                       PyFloat alpha_cu; PyFloat beta_t; PyFloat beta_c] in
  let* _ := to_process parameters in
  ret (MkObject UniaxialMaterialBase_op_base_type "ECC01" tag parameters
         [("sigt0", PyFloat sigt0); ("epst0", PyFloat epst0); ("sigt1", PyFloat sigt1);
          ("epst1", PyFloat epst1); ("epst2", PyFloat epst2); ("sigc0", PyFloat sigc0);
          ("epsc0", PyFloat epsc0); ("epsc1", PyFloat epsc1); ("alpha_t1", PyFloat alpha_t1);
          ("alpha_t2", PyFloat alpha_t2); ("alpha_c", PyFloat alpha_c);
          ("alpha_cu", PyFloat alpha_cu); ("beta_t", PyFloat beta_t);
          ("beta_c", PyFloat beta_c)]).

(** [SelfCentering.__init__(self, osi, k1, k2, sig_act, beta, eps_slip=0,
    eps_bear=0, r_bear=None)] *)
Definition SelfCentering_init
  (k1 k2 sig_act beta eps_slip eps_bear r_bear : pyval)
  : M OpenSeesObject :=
  let* k1 := lift (py_float k1) in
  let* k2 := lift (py_float k2) in
  let* sig_act := lift (py_float sig_act) in
  let* beta := lift (py_float beta) in
  let* eps_slip := lift (py_float eps_slip) in
  let* eps_bear := lift (py_float eps_bear) in
  let* r_bear := lift (py_float_opt r_bear) in
  let* _ := incr_osi "n_mat" in
  let* tag := getattr_osi "n_mat" in
  let parameters := [PyStr "SelfCentering"; PyInt tag; PyFloat k1; PyFloat k2;
                       PyFloat sig_act; PyFloat beta; PyFloat eps_slip; PyFloat eps_bear] in
  let* parameters := lift (special_pms_break [(r_bear, false)] parameters) in
  let* _ := to_process parameters in
  ret (MkObject UniaxialMaterialBase_op_base_type "SelfCentering" tag parameters
         [("k1", PyFloat k1); ("k2", PyFloat k2); ("sig_act", PyFloat sig_act);
          ("beta", PyFloat beta); ("eps_slip", PyFloat eps_slip);
          ("eps_bear", PyFloat eps_bear); ("r_bear", r_bear)]).

(** [Viscous.__init__(self, osi, big_c, alpha)] *)
Definition Viscous_init (big_c alpha : pyval) : M OpenSeesObject :=
  let* big_c := lift (py_float big_c) in
  let* alpha := lift (py_float alpha) in
  let* _ := incr_osi "n_mat" in
  let* tag := getattr_osi "n_mat" in
  let parameters := [PyStr "Viscous"; PyInt tag; PyFloat big_c; PyFloat alpha] in
  let* _ := to_process parameters in
  ret (MkObject UniaxialMaterialBase_op_base_type "Viscous" tag parameters
         [("big_c", PyFloat big_c); ("alpha", PyFloat alpha)]).

(** [BoucWen.__init__(self, osi, alpha, ko, n, gamma, beta, ao, delta_a,
    delta_nu, delta_eta)] *)
Definition BoucWen_init
  (alpha ko n gamma beta ao delta_a delta_nu delta_eta : pyval)
  : M OpenSeesObject :=
  let* alpha := lift (py_float alpha) in
  let* ko := lift (py_float ko) in
  let* n := lift (py_float n) in
  let* gamma := lift (py_float gamma) in
  let* beta := lift (py_float beta) in
  let* ao := lift (py_float ao) in
  let* delta_a := lift (py_float delta_a) in
  let* delta_nu := lift (py_float delta_nu) in
  let* delta_eta := lift (py_float delta_eta) in
  let* _ := incr_osi "n_mat" in
  let* tag := getattr_osi "n_mat" in
  let parameters := [PyStr "BoucWen"; PyInt tag; PyFloat alpha; PyFloat ko; PyFloat n;
                       PyFloat gamma; PyFloat beta; PyFloat ao; PyFloat delta_a;
                       PyFloat delta_nu; PyFloat delta_eta] in
  let* _ := to_process parameters in
  ret (MkObject UniaxialMaterialBase_op_base_type "BoucWen" tag parameters
         [("alpha", PyFloat alpha); ("ko", PyFloat ko); ("n", PyFloat n);
          ("gamma", PyFloat gamma); ("beta", PyFloat beta); ("ao", PyFloat ao);
          ("delta_a", PyFloat delta_a); ("delta_nu", PyFloat delta_nu);
          ("delta_eta", PyFloat delta_eta)]).

(** [BWBN.__init__(self, osi, alpha, ko, n, gamma, beta, ao, q, zetas, p, shi,
    delta_shi, lamb, tol, max_iter)] *)
Definition BWBN_init
  (alpha ko n gamma beta ao q zetas p shi delta_shi lamb tol max_iter : pyval)
  : M OpenSeesObject :=
  let* alpha := lift (py_float alpha) in
  let* ko := lift (py_float ko) in
  let* n := lift (py_float n) in
  let* gamma := lift (py_float gamma) in
  let* beta := lift (py_float beta) in
  let* ao := lift (py_float ao) in
  let* q := lift (py_float q) in
  let* zetas := lift (py_float zetas) in
  let* p := lift (py_float p) in
  let* shi := lift (py_float shi) in
  let* delta_shi := lift (py_float delta_shi) in
  let* lamb := lift (py_float lamb) in
  let* tol := lift (py_float tol) in
  let* max_iter := lift (py_float max_iter) in
  let* _ := incr_osi "n_mat" in
  let* tag := getattr_osi "n_mat" in
  let parameters := [PyStr "BWBN"; PyInt tag; PyFloat alpha; PyFloat ko; PyFloat n;
                       PyFloat gamma; PyFloat beta; PyFloat ao; PyFloat q; PyFloat zetas;
                       PyFloat p; PyFloat shi; PyFloat delta_shi; PyFloat lamb; PyFloat tol;
                       PyFloat max_iter] in
  let* _ := to_process parameters in
  ret (MkObject UniaxialMaterialBase_op_base_type "BWBN" tag parameters
         [("alpha", PyFloat alpha); ("ko", PyFloat ko); ("n", PyFloat n);
          ("gamma", PyFloat gamma); ("beta", PyFloat beta); ("ao", PyFloat ao);
          ("q", PyFloat q); ("zetas", PyFloat zetas); ("p", PyFloat p); ("shi", PyFloat shi);
          ("delta_shi", PyFloat delta_shi); ("lamb", PyFloat lamb); ("tol", PyFloat tol);
          ("max_iter", PyFloat max_iter)]).

(** [AxialSp.__init__(self, osi, sce, fty, fcy, bte, bty, bcy, fcr)] *)
Definition AxialSp_init (sce fty fcy bte bty bcy fcr : pyval) : M OpenSeesObject :=
  let* sce := lift (py_float sce) in
  let* fty := lift (py_float fty) in
  let* fcy := lift (py_float fcy) in
  let* bte := lift (py_float bte) in
  let* bty := lift (py_float bty) in
  let* bcy := lift (py_float bcy) in
  let* fcr := lift (py_float fcr) in
  let* _ := incr_osi "n_mat" in
  let* tag := getattr_osi "n_mat" in
  let parameters := [PyStr "AxialSp"; PyInt tag; PyFloat sce; PyFloat fty; PyFloat fcy;
                       PyFloat bte; PyFloat bty; PyFloat bcy; PyFloat fcr] in
  let* _ := to_process parameters in
  ret (MkObject UniaxialMaterialBase_op_base_type "AxialSp" tag parameters
         [("sce", PyFloat sce); ("fty", PyFloat fty); ("fcy", PyFloat fcy);
          ("bte", PyFloat bte); ("bty", PyFloat bty); ("bcy", PyFloat bcy);
          ("fcr", PyFloat fcr)]).

(** [AxialSpHD.__init__(self, osi, sce, fty, fcy, bte, bty, bth, bcy, fcr,
    ath)] *)
Definition AxialSpHD_init (sce fty fcy bte bty bth bcy fcr ath : pyval) : M OpenSeesObject :=
  let* sce := lift (py_float sce) in
  let* fty := lift (py_float fty) in
  let* fcy := lift (py_float fcy) in
  let* bte := lift (py_float bte) in
  let* bty := lift (py_float bty) in
  let* bth := lift (py_float bth) in
  let* bcy := lift (py_float bcy) in
  let* fcr := lift (py_float fcr) in
  let* ath := lift (py_float ath) in
  let* _ := incr_osi "n_mat" in
  let* tag := getattr_osi "n_mat" in
  let parameters := [PyStr "AxialSpHD"; PyInt tag; PyFloat sce; PyFloat fty; PyFloat fcy;
                       PyFloat bte; PyFloat bty; PyFloat bth; PyFloat bcy; PyFloat fcr;
                       PyFloat ath] in
  let* _ := to_process parameters in
  ret (MkObject UniaxialMaterialBase_op_base_type "AxialSpHD" tag parameters
         [("sce", PyFloat sce); ("fty", PyFloat fty); ("fcy", PyFloat fcy);
          ("bte", PyFloat bte); ("bty", PyFloat bty); ("bth", PyFloat bth);
          ("bcy", PyFloat bcy); ("fcr", PyFloat fcr); ("ath", PyFloat ath)]).

(** [CFSWSWP.__init__(self, osi, height, width, fut, tf, ife, ifi, ts, np, ds,
    vs, sc, nc, otype, opening_area, opening_length)] *)
Definition CFSWSWP_init
  (height width fut tf ife ifi ts np ds vs sc nc otype opening_area opening_length : pyval)
  : M OpenSeesObject :=
  let* height := lift (py_float height) in
  let* width := lift (py_float width) in
  let* fut := lift (py_float fut) in
  let* tf := lift (py_float tf) in
  let* ife := lift (py_float ife) in
  let* ifi := lift (py_float ifi) in
  let* ts := lift (py_float ts) in
  let* np := lift (py_float np) in
  let* ds := lift (py_float ds) in
  let* vs := lift (py_float vs) in
  let* sc := lift (py_float sc) in
  let* nc := lift (py_float nc) in
  let* otype := lift (py_int otype) in
  let* opening_area := lift (py_float opening_area) in
  let* opening_length := lift (py_float opening_length) in
  let* _ := incr_osi "n_mat" in
  let* tag := getattr_osi "n_mat" in
  let parameters := [PyStr "CFSWSWP"; PyInt tag; PyFloat height; PyFloat width; PyFloat fut;
                       PyFloat tf; PyFloat ife; PyFloat ifi; PyFloat ts; PyFloat np;
                       PyFloat ds; PyFloat vs; PyFloat sc; PyFloat nc; PyInt otype;
                       PyFloat opening_area; PyFloat opening_length] in
  let* _ := to_process parameters in
  ret (MkObject UniaxialMaterialBase_op_base_type "CFSWSWP" tag parameters
         [("height", PyFloat height); ("width", PyFloat width); ("fut", PyFloat fut);
          ("tf", PyFloat tf); ("ife", PyFloat ife); ("ifi", PyFloat ifi); ("ts", PyFloat ts);
          ("np", PyFloat np); ("ds", PyFloat ds); ("vs", PyFloat vs); ("sc", PyFloat sc);
          ("nc", PyFloat nc); ("otype", PyInt otype); ("opening_area", PyFloat opening_area);
          ("opening_length", PyFloat opening_length)]).

(** [CFSSSWP.__init__(self, osi, height, width, fuf, fyf, tf, af, fus, fys,
    ts, np, ds, vs, sc, dt, opening_area, opening_length)] *)
Definition CFSSSWP_init
  (height width fuf fyf tf af fus fys ts np ds vs sc dt opening_area opening_length : pyval)
  : M OpenSeesObject :=
  let* height := lift (py_float height) in
  let* width := lift (py_float width) in
  let* fuf := lift (py_float fuf) in
  let* fyf := lift (py_float fyf) in
  let* tf := lift (py_float tf) in
  let* af := lift (py_float af) in
  let* fus := lift (py_float fus) in
  let* fys := lift (py_float fys) in
  let* ts := lift (py_float ts) in
  let* np := lift (py_float np) in
  let* ds := lift (py_float ds) in
  let* vs := lift (py_float vs) in
  let* sc := lift (py_float sc) in
  let* dt := lift (py_float dt) in
  let* opening_area := lift (py_float opening_area) in
  let* opening_length := lift (py_float opening_length) in
  let* _ := incr_osi "n_mat" in
  let* tag := getattr_osi "n_mat" in
  let parameters := [PyStr "CFSSSWP"; PyInt tag; PyFloat height; PyFloat width; PyFloat fuf;
                       PyFloat fyf; PyFloat tf; PyFloat af; PyFloat fus; PyFloat fys;
                       PyFloat ts; PyFloat np; PyFloat ds; PyFloat vs; PyFloat sc;
                       PyFloat dt; PyFloat opening_area; PyFloat opening_length] in
  let* _ := to_process parameters in
  ret (MkObject UniaxialMaterialBase_op_base_type "CFSSSWP" tag parameters
         [("height", PyFloat height); ("width", PyFloat width); ("fuf", PyFloat fuf);
          ("fyf", PyFloat fyf); ("tf", PyFloat tf); ("af", PyFloat af); ("fus", PyFloat fus);
          ("fys", PyFloat fys); ("ts", PyFloat ts); ("np", PyFloat np); ("ds", PyFloat ds);
          ("vs", PyFloat vs); ("sc", PyFloat sc); ("dt", PyFloat dt);
          ("opening_area", PyFloat opening_area); ("opening_length", PyFloat opening_length)]).

(** ** The other constructor calls *)

(** One call of a constructor of [standard.py] or [other.py] that [command]
    does not list. *)
Inductive more_command : Type :=
| ElasticPP (op_type : option string) (big_e epsy_p epsy_n eps0 : pyval)
| ElasticPPGap (op_type : option string) (big_e fy gap eta damage : pyval)
| ENT (op_type : option string) (big_e : pyval)
| Parallel (op_type : option string) (tags factor_args : pyval)
| Series (op_type : option string) (tags : pyval)
| ViscousDamper (big_k cd alpha l_gap nm rel_tol abs_tol max_half : pyval)
| BilinearOilDamper (big_k cd fr p l_gap nm rel_tol abs_tol max_half : pyval)
| Bilin (k0 as__plus as__neg my__plus my__neg lamda_s lamda_c lamda_a lamda_k c_s c_c c_a
    c_k theta_p__plus theta_p__neg theta_pc__plus theta_pc__neg res__pos res__neg
    theta_u__plus theta_u__neg d__plus d__neg n_factor : pyval)
| ModIMKPeakOriented (k0 as__plus as__neg my__plus my__neg lamda_s lamda_c lamda_a lamda_k
    c_s c_c c_a c_k theta_p__plus theta_p__neg theta_pc__plus theta_pc__neg res__pos
    res__neg theta_u__plus theta_u__neg d__plus d__neg : pyval)
| ModIMKPinching (k0 as__plus as__neg my__plus my__neg fpr_pos fpr_neg a_pinch lamda_s
    lamda_c lamda_a lamda_k c_s c_c c_a c_k theta_p__plus theta_p__neg theta_pc__plus
    theta_pc__neg res__pos res__neg theta_u__plus theta_u__neg d__plus d__neg : pyval)
| BarSlip (fc fy es fu eh db ld nb depth height bs_flag otype anc_lratio damage unit : pyval)
| ImpactMaterial (k1 k2 sigy gap : pyval)
| HyperbolicGapMaterial (kmax kur rf fult gap : pyval)
| ElasticBilin (ep1 ep2 eps_p2 en1 en2 eps_n2 : pyval)
| MultiLinear (pts : pyval)
| InitStrainMaterial (other init_strain : pyval)
| InitStressMaterial (other init_stress : pyval)
| ECC01 (sigt0 epst0 sigt1 epst1 epst2 sigc0 epsc0 epsc1 alpha_t1 alpha_t2 alpha_c alpha_cu
    beta_t beta_c : pyval)
| SelfCentering (k1 k2 sig_act beta eps_slip eps_bear r_bear : pyval)
| Viscous (big_c alpha : pyval)
| BoucWen (alpha ko n gamma beta ao delta_a delta_nu delta_eta : pyval)
| BWBN (alpha ko n gamma beta ao q zetas p shi delta_shi lamb tol max_iter : pyval)
| AxialSp (sce fty fcy bte bty bcy fcr : pyval)
| AxialSpHD (sce fty fcy bte bty bth bcy fcr ath : pyval)
| CFSWSWP (height width fut tf ife ifi ts np ds vs sc nc otype opening_area opening_length : pyval)
| CFSSSWP (height width fuf fyf tf af fus fys ts np ds vs sc dt opening_area opening_length : pyval).

(** Running such a call against the context. *)
Definition construct_more (c : more_command) : M OpenSeesObject :=
  match c with
  | ElasticPP op_type big_e epsy_p epsy_n eps0 =>
      ElasticPP_init op_type big_e epsy_p epsy_n eps0
  | ElasticPPGap op_type big_e fy gap eta damage =>
      ElasticPPGap_init op_type big_e fy gap eta damage
  | ENT op_type big_e =>
      ENT_init op_type big_e
  | Parallel op_type tags factor_args =>
      Parallel_init op_type tags factor_args
  | Series op_type tags =>
      Series_init op_type tags
  | ViscousDamper big_k cd alpha l_gap nm rel_tol abs_tol max_half =>
      ViscousDamper_init big_k cd alpha l_gap nm rel_tol abs_tol max_half
  | BilinearOilDamper big_k cd fr p l_gap nm rel_tol abs_tol max_half =>
      BilinearOilDamper_init big_k cd fr p l_gap nm rel_tol abs_tol max_half
  | Bilin k0 as__plus as__neg my__plus my__neg lamda_s lamda_c lamda_a lamda_k c_s c_c c_a
      c_k theta_p__plus theta_p__neg theta_pc__plus theta_pc__neg res__pos res__neg
      theta_u__plus theta_u__neg d__plus d__neg n_factor =>
      Bilin_init k0 as__plus as__neg my__plus my__neg lamda_s lamda_c lamda_a lamda_k c_s
        c_c c_a c_k theta_p__plus theta_p__neg theta_pc__plus theta_pc__neg res__pos
        res__neg theta_u__plus theta_u__neg d__plus d__neg n_factor
  | ModIMKPeakOriented k0 as__plus as__neg my__plus my__neg lamda_s lamda_c lamda_a lamda_k
      c_s c_c c_a c_k theta_p__plus theta_p__neg theta_pc__plus theta_pc__neg res__pos
      res__neg theta_u__plus theta_u__neg d__plus d__neg =>
      ModIMKPeakOriented_init k0 as__plus as__neg my__plus my__neg lamda_s lamda_c lamda_a
        lamda_k c_s c_c c_a c_k theta_p__plus theta_p__neg theta_pc__plus theta_pc__neg
        res__pos res__neg theta_u__plus theta_u__neg d__plus d__neg
  | ModIMKPinching k0 as__plus as__neg my__plus my__neg fpr_pos fpr_neg a_pinch lamda_s
      lamda_c lamda_a lamda_k c_s c_c c_a c_k theta_p__plus theta_p__neg theta_pc__plus
      theta_pc__neg res__pos res__neg theta_u__plus theta_u__neg d__plus d__neg =>
      ModIMKPinching_init k0 as__plus as__neg my__plus my__neg fpr_pos fpr_neg a_pinch
        lamda_s lamda_c lamda_a lamda_k c_s c_c c_a c_k theta_p__plus theta_p__neg
        theta_pc__plus theta_pc__neg res__pos res__neg theta_u__plus theta_u__neg d__plus
        d__neg
  | BarSlip fc fy es fu eh db ld nb depth height bs_flag otype anc_lratio damage unit =>
      BarSlip_init fc fy es fu eh db ld nb depth height bs_flag otype anc_lratio damage unit
  | ImpactMaterial k1 k2 sigy gap =>
      ImpactMaterial_init k1 k2 sigy gap
  | HyperbolicGapMaterial kmax kur rf fult gap =>
      HyperbolicGapMaterial_init kmax kur rf fult gap
  | ElasticBilin ep1 ep2 eps_p2 en1 en2 eps_n2 =>
      ElasticBilin_init ep1 ep2 eps_p2 en1 en2 eps_n2
  | MultiLinear pts =>
      MultiLinear_init pts
  | InitStrainMaterial other init_strain =>
      InitStrainMaterial_init other init_strain
  | InitStressMaterial other init_stress =>
      InitStressMaterial_init other init_stress
  | ECC01 sigt0 epst0 sigt1 epst1 epst2 sigc0 epsc0 epsc1 alpha_t1 alpha_t2 alpha_c
      alpha_cu beta_t beta_c =>
      ECC01_init sigt0 epst0 sigt1 epst1 epst2 sigc0 epsc0 epsc1 alpha_t1 alpha_t2 alpha_c
        alpha_cu beta_t beta_c
  | SelfCentering k1 k2 sig_act beta eps_slip eps_bear r_bear =>
      SelfCentering_init k1 k2 sig_act beta eps_slip eps_bear r_bear
  | Viscous big_c alpha =>
      Viscous_init big_c alpha
  | BoucWen alpha ko n gamma beta ao delta_a delta_nu delta_eta =>
      BoucWen_init alpha ko n gamma beta ao delta_a delta_nu delta_eta
  | BWBN alpha ko n gamma beta ao q zetas p shi delta_shi lamb tol max_iter =>
      BWBN_init alpha ko n gamma beta ao q zetas p shi delta_shi lamb tol max_iter
  | AxialSp sce fty fcy bte bty bcy fcr =>
      AxialSp_init sce fty fcy bte bty bcy fcr
  | AxialSpHD sce fty fcy bte bty bth bcy fcr ath =>
      AxialSpHD_init sce fty fcy bte bty bth bcy fcr ath
  | CFSWSWP height width fut tf ife ifi ts np ds vs sc nc otype opening_area opening_length =>
      CFSWSWP_init height width fut tf ife ifi ts np ds vs sc nc otype opening_area
        opening_length
  | CFSSSWP height width fuf fyf tf af fus fys ts np ds vs sc dt opening_area opening_length =>
      CFSSSWP_init height width fuf fyf tf af fus fys ts np ds vs sc dt opening_area
        opening_length
  end.

(** The [float(...)] and [int(...)] calls of each of these constructors, in the
    order its body makes them. *)
Definition coercions_more (c : more_command) : list (exn + pyval) :=
  match c with
  | ElasticPP _ big_e epsy_p epsy_n eps0 =>
      map as_float [big_e; epsy_p; epsy_n; eps0]
  | ElasticPPGap _ big_e fy gap eta _ =>
      map as_float [big_e; fy; gap; eta]
  | ENT _ big_e =>
      [as_float big_e]
  | Parallel _ _ _ =>
      []
  | Series _ _ =>
      []
  | ViscousDamper big_k cd alpha l_gap nm rel_tol abs_tol max_half =>
      map as_float [big_k; cd; alpha; l_gap] ++ [as_int nm] ++ map as_float [rel_tol;
        abs_tol] ++ [as_int max_half]
  | BilinearOilDamper big_k cd fr p l_gap nm rel_tol abs_tol max_half =>
      map as_float [big_k; cd; fr; p; l_gap] ++ [as_int nm] ++ map as_float [rel_tol;
        abs_tol] ++ [as_int max_half]
  | Bilin k0 as__plus as__neg my__plus my__neg lamda_s lamda_c lamda_a lamda_k c_s c_c c_a
      c_k theta_p__plus theta_p__neg theta_pc__plus theta_pc__neg res__pos res__neg
      theta_u__plus theta_u__neg d__plus d__neg n_factor =>
      map as_float [k0; as__plus; as__neg; my__plus; my__neg; lamda_s; lamda_c; lamda_a;
        lamda_k; c_s; c_c; c_a; c_k; theta_p__plus; theta_p__neg; theta_pc__plus;
        theta_pc__neg; res__pos; res__neg; theta_u__plus; theta_u__neg; d__plus; d__neg;
        n_factor]
  | ModIMKPeakOriented k0 as__plus as__neg my__plus my__neg lamda_s lamda_c lamda_a lamda_k
      c_s c_c c_a c_k theta_p__plus theta_p__neg theta_pc__plus theta_pc__neg res__pos
      res__neg theta_u__plus theta_u__neg d__plus d__neg =>
      map as_float [k0; as__plus; as__neg; my__plus; my__neg; lamda_s; lamda_c; lamda_a;
        lamda_k; c_s; c_c; c_a; c_k; theta_p__plus; theta_p__neg; theta_pc__plus;
        theta_pc__neg; res__pos; res__neg; theta_u__plus; theta_u__neg; d__plus; d__neg]
  | ModIMKPinching k0 as__plus as__neg my__plus my__neg fpr_pos fpr_neg a_pinch lamda_s
      lamda_c lamda_a lamda_k c_s c_c c_a c_k theta_p__plus theta_p__neg theta_pc__plus
      theta_pc__neg res__pos res__neg theta_u__plus theta_u__neg d__plus d__neg =>
      map as_float [k0; as__plus; as__neg; my__plus; my__neg; fpr_pos; fpr_neg; a_pinch;
        lamda_s; lamda_c; lamda_a; lamda_k; c_s; c_c; c_a; c_k; theta_p__plus;
        theta_p__neg; theta_pc__plus; theta_pc__neg; res__pos; res__neg; theta_u__plus;
        theta_u__neg; d__plus; d__neg]
  | BarSlip fc fy es fu eh db ld nb depth height _ _ anc_lratio _ _ =>
      map as_float [fc; fy; es; fu; eh; db; ld] ++ [as_int nb] ++ map as_float [depth;
        height; anc_lratio]
  | ImpactMaterial k1 k2 sigy gap =>
      map as_float [k1; k2; sigy; gap]
  | HyperbolicGapMaterial kmax kur rf fult gap =>
      map as_float [kmax; kur; rf; fult; gap]
  | ElasticBilin ep1 ep2 eps_p2 en1 en2 eps_n2 =>
      map as_float [ep1; ep2; eps_p2] ++ map py_float_opt [en1; en2; eps_n2]
  | MultiLinear _ =>
      []
  | InitStrainMaterial _ init_strain =>
      [as_float init_strain]
  | InitStressMaterial _ init_stress =>
      [as_float init_stress]
  | ECC01 sigt0 epst0 sigt1 epst1 epst2 sigc0 epsc0 epsc1 alpha_t1 alpha_t2 alpha_c
      alpha_cu beta_t beta_c =>
      map as_float [sigt0; epst0; sigt1; epst1; epst2; sigc0; epsc0; epsc1; alpha_t1;
        alpha_t2; alpha_c; alpha_cu; beta_t; beta_c]
  | SelfCentering k1 k2 sig_act beta eps_slip eps_bear r_bear =>
      map as_float [k1; k2; sig_act; beta; eps_slip; eps_bear] ++ [py_float_opt r_bear]
  | Viscous big_c alpha =>
      map as_float [big_c; alpha]
  | BoucWen alpha ko n gamma beta ao delta_a delta_nu delta_eta =>
      map as_float [alpha; ko; n; gamma; beta; ao; delta_a; delta_nu; delta_eta]
  | BWBN alpha ko n gamma beta ao q zetas p shi delta_shi lamb tol max_iter =>
      map as_float [alpha; ko; n; gamma; beta; ao; q; zetas; p; shi; delta_shi; lamb; tol;
        max_iter]
  | AxialSp sce fty fcy bte bty bcy fcr =>
      map as_float [sce; fty; fcy; bte; bty; bcy; fcr]
  | AxialSpHD sce fty fcy bte bty bth bcy fcr ath =>
      map as_float [sce; fty; fcy; bte; bty; bth; bcy; fcr; ath]
  | CFSWSWP height width fut tf ife ifi ts np ds vs sc nc otype opening_area opening_length =>
      map as_float [height; width; fut; tf; ife; ifi; ts; np; ds; vs; sc; nc] ++ [as_int
        otype] ++ map as_float [opening_area; opening_length]
  | CFSSSWP height width fuf fyf tf af fus fys ts np ds vs sc dt opening_area opening_length =>
      map as_float [height; width; fuf; fyf; tf; af; fus; fys; ts; np; ds; vs; sc; dt;
        opening_area; opening_length]
  end.

(** The counter attribute each of them increments, and the attribute it reads
    its tag from. *)
Definition counter_of_more (c : more_command) : string :=
  match c with
  | ElasticPP _ _ _ _ _ => "n_mats"
  | ElasticPPGap _ _ _ _ _ _ => "n_mats"
  | ENT _ _ => "n_mats"
  | Parallel _ _ _ => "n_mats"
  | Series _ _ => "n_mats"
  | _ => "n_mat"
  end.

Definition tag_attr_of_more (c : more_command) : string :=
  match c with
  | ElasticPP _ _ _ _ _ => "mats"
  | ElasticPPGap _ _ _ _ _ _ => "mats"
  | ENT _ _ => "mats"
  | Parallel _ _ _ => "mats"
  | Series _ _ => "mats"
  | _ => "n_mat"
  end.

(** ** The whole catalogue *)

(** A call of any constructor of [standard.py], [other.py] or [layer.py]. *)
Definition any_command : Type := command + more_command.

Definition construct_any (c : any_command) : M OpenSeesObject :=
  match c with
  | inl c => construct c
  | inr c => construct_more c
  end.

Definition counter_of_any (c : any_command) : string :=
  match c with
  | inl c => counter_of c
  | inr c => counter_of_more c
  end.

(** The attribute a constructor reads its tag from: [osi.mats] in
    [standard.py], the counter itself elsewhere. *)
Definition tag_attr_of_any (c : any_command) : string :=
  match c with
  | inl (Elastic _ _ _) => "mats"
  | inl _ => "n_mat"
  | inr c => tag_attr_of_more c
  end.

(** The constructors of [other.py] among them whose every argument is coerced
    by [float] or [int] and emitted: no optional, packet, reference or
    uncoerced field. *)
Definition all_coerced (c : more_command) : bool :=
  match c with
  | ViscousDamper _ _ _ _ _ _ _ _ => true
  | BilinearOilDamper _ _ _ _ _ _ _ _ _ => true
  | Bilin _ _ _ _ _ _ _ _ _ _ _ _ _ _ _ _ _ _ _ _ _ _ _ _ => true
  | ModIMKPeakOriented _ _ _ _ _ _ _ _ _ _ _ _ _ _ _ _ _ _ _ _ _ _ _ => true
  | ModIMKPinching _ _ _ _ _ _ _ _ _ _ _ _ _ _ _ _ _ _ _ _ _ _ _ _ _ _ => true
  | ImpactMaterial _ _ _ _ => true
  | HyperbolicGapMaterial _ _ _ _ _ => true
  | ECC01 _ _ _ _ _ _ _ _ _ _ _ _ _ _ => true
  | Viscous _ _ => true
  | BoucWen _ _ _ _ _ _ _ _ _ => true
  | BWBN _ _ _ _ _ _ _ _ _ _ _ _ _ _ => true
  | AxialSp _ _ _ _ _ _ _ => true
  | AxialSpHD _ _ _ _ _ _ _ _ _ => true
  | CFSWSWP _ _ _ _ _ _ _ _ _ _ _ _ _ _ _ => true
  | CFSSSWP _ _ _ _ _ _ _ _ _ _ _ _ _ _ _ _ => true
  | _ => false
  end.

(** The coercions of any call. *)
Definition coercions_any (c : any_command) : list (exn + pyval) :=
  match c with
  | inl c => coercions c
  | inr c => coercions_more c
  end.

(** A session: like a construction script, over the whole catalogue. *)
Fixpoint run_session (steps : list (list OpenSeesObject -> any_command))
    (built : list OpenSeesObject) : M (list OpenSeesObject) :=
  match steps with
  | [] => ret built
  | step :: rest =>
      let* o := construct_any (step built) in
      run_session rest (built ++ [o])
  end.

End Catalogue.

(** ** A sample session

    Closed inputs for the examples at the end of the file. *)

(** [m1 = Hardening(osi, 2.0e8, 250.0, 0, 1.0e6)], then
    [m2 = MinMax(osi, m1, min_strain=-0.125)], then
    [m3 = BondSP01(osi, 60.0, 0.5, 90.0, 2.0, 0.5, 0.75)], then
    [Circ(osi, 8, 0.25, [0.0, 0.0], 1.5)]. *)
Definition sample_script : list (list OpenSeesObject -> command) :=
  [ (fun _ => Hardening (PyFloat 2e8) (PyFloat 250) (PyInt 0) (PyFloat 1e6) (PyFloat 0));
    (fun built => MinMax (match built with m :: _ => PyObj m | [] => PyNone end)
                    (PyFloat (-0.125)) PyNone);
    (fun _ => BondSP01 (PyFloat 60) (PyFloat 0.5) (PyFloat 90) (PyFloat 2) (PyFloat 0.5)
                (PyFloat 0.75));
    (fun _ => Circ (PyInt 8) (PyFloat 0.25) (PyList [PyFloat 0; PyFloat 0]) (PyFloat 1.5)
                PyNone) ].

Definition sample_run : (exn + list OpenSeesObject) * OpenseesInstance :=
  @run_script no_text_runtime sample_script [] OpenseesInstance_init.

Definition sample_objects : list OpenSeesObject :=
  match fst sample_run with
  | inr objs => objs
  | inl _ => []
  end.

Definition sample_context : OpenseesInstance := snd sample_run.

(** The third object of the sample session, a material tagged 3. *)
Definition sample_material : OpenSeesObject :=
  match sample_objects with
  | _ :: _ :: m :: _ => m
  | _ => MkObject "" "" 0 [] []
  end.

(** [Cast] with [a1] left absent and [a2=5.0] given. *)
Definition sample_cast : command :=
  Cast (PyInt 4) (PyFloat 10) (PyFloat 1) (PyFloat 250) (PyFloat 2e8) (PyFloat 100)
    (PyFloat 0.5) (PyFloat 20) (PyFloat 0.75) (PyFloat 0.125)
    PyNone (PyFloat 5) PyNone (PyFloat 1).

(** The dashpot material of [examples/site_response_analysis.py],
    [Viscous(osi, c_base, alpha=1.)], with [c_base = 640.0]. *)
Definition sample_viscous : more_command := Viscous (PyFloat 640) (PyFloat 1).

Definition sample_dashpot_run : (exn + OpenSeesObject) * OpenseesInstance :=
  @construct_any no_text_runtime (inr sample_viscous) OpenseesInstance_init.

Definition sample_dashpot : OpenSeesObject :=
  match fst sample_dashpot_run with
  | inr o => o
  | inl _ => MkObject "" "" 0 [] []
  end.

Definition sample_dashpot_context : OpenseesInstance := snd sample_dashpot_run.

(** A session that fails at its third step: the dashpot material, an
    [InitStrainMaterial] wrapping it, a [PathIndependent] given [None], and a
    [MultiLinear] that is never reached. *)
Definition sample_session : list (list OpenSeesObject -> any_command) :=
  [ (fun _ => inr sample_viscous);
    (fun built => inr (InitStrainMaterial
                         (match built with m :: _ => PyObj m | [] => PyNone end)
                         (PyFloat 0.125)));
    (fun _ => inl (PathIndependent PyNone));
    (fun _ => inr (MultiLinear (PyList [PyFloat 0.5; PyFloat 10]))) ].

Definition sample_session_run : (exn + list OpenSeesObject) * OpenseesInstance :=
  @run_session no_text_runtime sample_session [] OpenseesInstance_init.

Definition sample_session_context : OpenseesInstance := snd sample_session_run.

(** A session of [standard.py] constructors: [ENT], [ElasticPPGap] and
    [Elastic] with every argument given. *)
Definition sample_standard_session : list (list OpenSeesObject -> any_command) :=
  [ (fun _ => inr (ENT (Some "ENT") (PyFloat 2e8)));
    (fun _ => inr (ElasticPPGap (Some "ElasticPPGap") (PyFloat 2e8) (PyFloat 250)
                     (PyFloat 0.5) (PyFloat 0) (PyStr "noDamage")));
    (fun _ => inl (Elastic (PyFloat 2e8) (PyFloat 0) (PyFloat 1e8))) ].

Definition sample_standard_run : (exn + list OpenSeesObject) * OpenseesInstance :=
  @run_session no_text_runtime sample_standard_session [] OpenseesInstance_init.

Definition sample_standard_objects : list OpenSeesObject :=
  match fst sample_standard_run with
  | inr objs => objs
  | inl _ => []
  end.

Definition sample_standard_context : OpenseesInstance := snd sample_standard_run.

(** * Properties *)

Section Properties.

Context `{PyRuntime}.

(** ** Stepping through a constructor body *)

Lemma bind_lift_inr {A B} (a : A) (k : A -> M B) osi :
  bind (lift (inr a)) k osi = k a osi.
Proof. reflexivity. Qed.

Lemma bind_lift_inl {A B} (e : exn) (k : A -> M B) osi :
  bind (lift (inl e)) k osi = (inl e, osi).
Proof. reflexivity. Qed.

Lemma bind_ret {A B} (a : A) (k : A -> M B) osi :
  bind (ret a) k osi = k a osi.
Proof. reflexivity. Qed.

Lemma bind_to_process {B} parameters (k : unit -> M B) osi :
  bind (to_process parameters) k osi = k tt (dispatched parameters osi).
Proof. reflexivity. Qed.

(** Counter allocation, [osi.<name> += 1; self._tag = osi.<name>], when the
    attribute exists: the tag is the incremented value. *)
Lemma bind_allocate {B} name n (k : Z -> M B) osi :
  attrs osi !! name = Some n ->
  bind (incr_osi name) (fun _ => bind (getattr_osi name) k) osi
  = k (n + 1) (advance name n osi).
Proof.
  intros Hn. unfold bind at 1. unfold incr_osi. rewrite Hn.
  unfold bind, getattr_osi. cbn [attrs]. rewrite lookup_insert_eq. reflexivity.
Qed.

(** ... and when it does not: [AttributeError], context untouched. *)
Lemma bind_allocate_missing {B} name (k : Z -> M B) osi :
  attrs osi !! name = None ->
  bind (incr_osi name) (fun _ => bind (getattr_osi name) k) osi
  = (inl (AttributeError name), osi).
Proof. intros Hn. unfold bind at 1. unfold incr_osi. rewrite Hn. reflexivity. Qed.

(** Case analysis on the coercion at the head of the body, keeping the
    hypothesis [Hc] on the whole coercion sequence in step. *)
Ltac head_coercion Hc :=
  lazymatch goal with
  | |- bind (lift ?r) _ _ = _ =>
      let E := fresh "E" in
      destruct r eqn:E;
      [ rewrite bind_lift_inl | rewrite bind_lift_inr; cbv beta ];
      cbn [sequence] in Hc
  end.

(** C10.  A coercion that raises does so before the counter is touched and
    before anything is dispatched: the constructor fails with that exception
    and the context is exactly what it was. *)
Theorem coercion_failure_leaves_context (c : command) (osi : OpenseesInstance) (e : exn) :
  sequence (coercions c) = inl e ->
  construct c osi = (inl e, osi).
Proof.
  intros Hc.
  destruct c; cbn [construct coercions map app] in *;
    unfold Elastic_init, Hardening_init, Cast_init, SAWS_init, BondSP01_init,
      Fatigue_init, LimitState_init, MinMax_init, ElasticMultiLinear_init,
      PathIndependent_init, Straight_init, Circ_init;
    unfold as_float, as_int in Hc;
    repeat (head_coercion Hc; [congruence|]);
    cbn [sequence] in Hc; discriminate.
Qed.

(** ** What one construction does to the context *)

Lemma bind_incr {B} name n (k : unit -> M B) osi :
  attrs osi !! name = Some n ->
  bind (incr_osi name) k osi = k tt (advance name n osi).
Proof. intros Hn. unfold bind, incr_osi. rewrite Hn. reflexivity. Qed.

Lemma bind_incr_missing {B} name (k : unit -> M B) osi :
  attrs osi !! name = None ->
  bind (incr_osi name) k osi = (inl (AttributeError name), osi).
Proof. intros Hn. unfold bind, incr_osi. rewrite Hn. reflexivity. Qed.

Lemma bind_getattr {B} name t (k : Z -> M B) osi :
  attrs osi !! name = Some t ->
  bind (getattr_osi name) k osi = k t osi.
Proof. intros Ht. unfold bind, getattr_osi. rewrite Ht. reflexivity. Qed.

Lemma bind_getattr_missing {B} name (k : Z -> M B) osi :
  attrs osi !! name = None ->
  bind (getattr_osi name) k osi = (inl (AttributeError name), osi).
Proof. intros Ht. unfold bind, getattr_osi. rewrite Ht. reflexivity. Qed.

(** One step of symbolic execution of a body of the shape
    [coercions; counter; tag; parameter assembly; to_process; return], on a
    goal [body osi = outcome -> _]. *)
Ltac step_body :=
  first
    [ rewrite bind_to_process
    | rewrite bind_ret
    | progress cbv zeta beta
    | lazymatch goal with
      | |- bind (lift ?r) _ _ = _ -> _ =>
          destruct r eqn:?; [ rewrite bind_lift_inl | rewrite bind_lift_inr ]
      | |- bind (incr_osi ?name) (fun _ => bind (getattr_osi ?name) _) ?osi = _ -> _ =>
          let L := fresh "Hcounter" in
          destruct (attrs osi !! name) eqn:L;
          [ rewrite (bind_allocate _ _ _ _ L) | rewrite (bind_allocate_missing _ _ _ L) ]
      | |- bind (incr_osi ?name) _ ?osi = _ -> _ =>
          let L := fresh "Hcounter" in
          destruct (attrs osi !! name) eqn:L;
          [ rewrite (bind_incr _ _ _ _ L) | rewrite (bind_incr_missing _ _ _ L) ]
      | |- bind (getattr_osi ?name) _ ?osi = _ -> _ =>
          let L := fresh "Hattr" in
          destruct (attrs osi !! name) eqn:L;
          [ rewrite (bind_getattr _ _ _ _ L) | rewrite (bind_getattr_missing _ _ _ L) ]
      end ].

Ltac unfold_init :=
  cbn [construct];
  unfold Elastic_init, Hardening_init, Cast_init, SAWS_init, BondSP01_init,
    Fatigue_init, LimitState_init, MinMax_init, ElasticMultiLinear_init,
    PathIndependent_init, Straight_init, Circ_init.

(** A successful construction hands exactly one list to the backend, its own
    parameter list, after everything received before. *)
Lemma construct_dispatches_once c osi o osi' :
  construct c osi = (inr o, osi') ->
  commands osi' = commands osi ++ [_parameters o].
Proof.
  destruct c; unfold_init; repeat step_body;
    intros [= <- <-]; reflexivity.
Qed.

(** A failed construction hands nothing to the backend. *)
Lemma construct_failure_dispatches_nothing c osi e osi' :
  construct c osi = (inl e, osi') ->
  commands osi' = commands osi.
Proof.
  destruct c; unfold_init; repeat step_body;
    intros [= <- <-]; reflexivity.
Qed.

(** The constructors that allocate through [n_mat] take the incremented
    counter as their tag and leave it in the context. *)
Lemma construct_allocates_n_mat c osi n o osi' :
  counter_of c = "n_mat" ->
  attrs osi !! "n_mat" = Some n ->
  construct c osi = (inr o, osi') ->
  _tag o = n + 1 /\ attrs osi' = <["n_mat" := n + 1]> (attrs osi).
Proof.
  intros Hc Hn. revert Hc.
  destruct c; cbn [counter_of]; try discriminate; intros _;
    unfold_init; repeat step_body;
    intros [= <- <-]; cbn; split; congruence.
Qed.

(** ** Construction scripts *)

Lemma run_script_cons step rest built osi :
  run_script (step :: rest) built osi =
  match construct (step built) osi with
  | (inr o, osi1) => run_script rest (built ++ [o]) osi1
  | (inl e, osi1) => (inl e, osi1)
  end.
Proof. reflexivity. Qed.

Lemma run_script_dispatch steps : forall built osi objs osi',
  run_script steps built osi = (inr objs, osi') ->
  exists new,
    objs = built ++ new /\ length new = length steps /\
    commands osi' = commands osi ++ map _parameters new.
Proof.
  induction steps as [|step rest IH]; intros built osi objs osi'.
  - intros [= <- <-]. exists []. rewrite !app_nil_r. auto.
  - rewrite run_script_cons.
    destruct (construct (step built) osi) as [[e|o] osi1] eqn:Hstep; [discriminate|].
    intros Hrest. apply IH in Hrest as (new & -> & Hlen & Hcmd).
    apply construct_dispatches_once in Hstep.
    exists (o :: new). cbn [length map]. rewrite Hcmd, Hstep, <- !app_assoc.
    auto.
Qed.

Lemma run_script_tags steps : forall built osi n objs osi',
  Forall (fun step => forall b, counter_of (step b) = "n_mat") steps ->
  attrs osi !! "n_mat" = Some n ->
  run_script steps built osi = (inr objs, osi') ->
  exists new,
    objs = built ++ new /\
    map _tag new = seqZ (n + 1) (Z.of_nat (length steps)) /\
    attrs osi' !! "n_mat" = Some (n + Z.of_nat (length steps)).
Proof.
  induction steps as [|step rest IH]; intros built osi n objs osi' Hall Hn.
  - intros [= <- <-]. exists []. rewrite app_nil_r, Z.add_0_r. auto.
  - rewrite run_script_cons.
    destruct (construct (step built) osi) as [[e|o] osi1] eqn:Hstep; [discriminate|].
    inversion Hall as [|? ? Hhead Htail]; subst.
    destruct (construct_allocates_n_mat _ _ _ _ _ (Hhead built) Hn Hstep) as [Htag Hattrs].
    assert (Hn1 : attrs osi1 !! "n_mat" = Some (n + 1))
      by (rewrite Hattrs; apply lookup_insert_eq).
    intros Hrest. destruct (IH _ _ _ _ _ Htail Hn1 Hrest) as (new & -> & Htags & Hcnt).
    exists (o :: new). rewrite <- app_assoc. split; [reflexivity|].
    cbn [length map]. rewrite Nat2Z.inj_succ. split.
    + rewrite seqZ_cons by lia. rewrite Htag, Htags. do 2 f_equal; lia.
    + rewrite Hcnt. f_equal. lia.
Qed.

(** ** Only built-in exceptions are ever raised *)

Lemma float_of_Z_builtin z e : float_of_Z z = inl e -> builtin_exn e = true.
Proof.
  unfold float_of_Z. destruct (binary_normalize _ _ _ _ _); intros [= <-]; reflexivity.
Qed.

Lemma Z_of_float_builtin f e : Z_of_float f = inl e -> builtin_exn e = true.
Proof.
  unfold Z_of_float. destruct (Prim2SF f) as [| | |[] ? ?]; intros [= <-]; reflexivity.
Qed.

Lemma py_float_builtin v e : py_float v = inl e -> builtin_exn e = true.
Proof.
  destruct v; cbn [py_float]; try (intros [= <-]; reflexivity).
  - apply float_of_Z_builtin.
  - destruct (float_of_str s); intros [= <-]; reflexivity.
Qed.

Lemma py_int_builtin v e : py_int v = inl e -> builtin_exn e = true.
Proof.
  destruct v; cbn [py_int]; try (intros [= <-]; reflexivity).
  - apply Z_of_float_builtin.
  - destruct (int_of_str s); intros [= <-]; reflexivity.
Qed.

Lemma py_float_opt_builtin v e : py_float_opt v = inl e -> builtin_exn e = true.
Proof.
  unfold py_float_opt.
  destruct v; try discriminate;
    match goal with |- context [py_float ?x] => destruct (py_float x) eqn:E end;
    intros [= <-]; eauto using py_float_builtin.
Qed.

Lemma tag_of_builtin v e : tag_of v = inl e -> builtin_exn e = true.
Proof. destruct v; intros [= <-]; reflexivity. Qed.

Lemma unpack_builtin v e : unpack v = inl e -> builtin_exn e = true.
Proof. destruct v; intros [= <-]; reflexivity. Qed.

Lemma flag_packet_builtin flag v e : flag_packet flag v = inl e -> builtin_exn e = true.
Proof.
  unfold flag_packet. destruct v; try discriminate;
    match goal with |- context [unpack ?x] => destruct (unpack x) eqn:E end;
    intros [= <-]; eauto using unpack_builtin.
Qed.

Lemma extend_opt_builtin v e : extend_opt v = inl e -> builtin_exn e = true.
Proof. destruct v; cbn [extend_opt]; try discriminate; apply unpack_builtin. Qed.

Lemma special_pms_break_builtin pms : forall parameters e,
  special_pms_break pms parameters = inl e -> builtin_exn e = true.
Proof.
  induction pms as [|[v []] pms IH]; intros parameters e; cbn [special_pms_break].
  - discriminate.
  - destruct v; try discriminate;
      match goal with |- context [unpack ?x] => destruct (unpack x) eqn:E end;
      first [ apply IH | intros [= <-]; eauto using unpack_builtin ].
  - destruct v; try discriminate; apply IH.
Qed.

Lemma special_pms_skip_builtin pms : forall parameters e,
  special_pms_skip pms parameters = inl e -> builtin_exn e = true.
Proof.
  induction pms as [|[v []] pms IH]; intros parameters e; cbn [special_pms_skip].
  - discriminate.
  - destruct v; try apply IH;
      match goal with |- context [unpack ?x] => destruct (unpack x) eqn:E end;
      first [ apply IH | intros [= <-]; eauto using unpack_builtin ].
  - destruct v; apply IH.
Qed.

Lemma construct_raises_builtin c osi e osi' :
  construct c osi = (inl e, osi') -> builtin_exn e = true.
Proof.
  destruct c; unfold_init; repeat step_body;
    intros [= <- <-];
    eauto using py_float_builtin, py_int_builtin, py_float_opt_builtin, tag_of_builtin,
      unpack_builtin, flag_packet_builtin, extend_opt_builtin,
      special_pms_break_builtin, special_pms_skip_builtin.
Qed.

(** The [else: break] loop over scalar fields appends the fields that come
    before the first absent one. *)
Lemma special_pms_break_scalars vs : forall parameters,
  special_pms_break (map (fun v => (v, false)) vs) parameters
  = inr (parameters ++ until_absent vs).
Proof.
  induction vs as [|v vs IH]; intros parameters; cbn [map special_pms_break until_absent].
  - rewrite app_nil_r. reflexivity.
  - destruct v; rewrite ?app_nil_r; try reflexivity;
      rewrite IH, <- app_assoc; reflexivity.
Qed.

(** ** Encoding of the parameter list *)

Lemma sequence_cons_inr {A} (r : exn + A) rs vs :
  sequence (r :: rs) = inr vs ->
  exists a l, r = inr a /\ sequence rs = inr l /\ vs = a :: l.
Proof.
  cbn [sequence]. destruct r as [e|a]; [discriminate|].
  destruct (sequence rs) as [e|l]; [discriminate|].
  intros [= <-]. eauto.
Qed.

Lemma as_float_inr v t : as_float v = inr t -> exists f, py_float v = inr f /\ t = PyFloat f.
Proof. unfold as_float. destruct (py_float v); [discriminate|]. intros [= <-]. eauto. Qed.

Lemma as_int_inr v t : as_int v = inr t -> exists z, py_int v = inr z /\ t = PyInt z.
Proof. unfold as_int. destruct (py_int v); [discriminate|]. intros [= <-]. eauto. Qed.

(** Running a body whose coercions are known to succeed: the hypothesis [Hc]
    on the coercion sequence is split into one equation per coercion, and the
    body is run through them. *)
Ltac coercions_succeed Hc :=
  cbn [coercions map app] in Hc;
  repeat (let a := fresh "a" in
          let l := fresh "l" in
          let E := fresh "E" in
          apply sequence_cons_inr in Hc; destruct Hc as (a & l & E & Hc & ->);
          first [ apply as_float_inr in E as (? & E & ->)
                | apply as_int_inr in E as (? & E & ->)
                | idtac ]);
  cbn [sequence] in Hc; injection Hc as <-;
  repeat match goal with
         | E : ?r = inr _ |- context [lift ?r] => rewrite E
         end;
  rewrite ?bind_lift_inr.

(** C4.  [SAWS] and [BondSP01] have required fields only.  With the counter
    at [n] and every field coercible, construction succeeds, the tag is
    [n + 1], and the encoded list is the [op_type] literal, the tag, then the
    coerced field values in declared order, and nothing else. *)
Theorem required_fields_encoding (osi : OpenseesInstance) (n : Z) :
  attrs osi !! "n_mat" = Some n ->
  (forall f0 fi du s0 r1 r2 r3 r4 alpha beta vs,
     sequence (map as_float [f0; fi; du; s0; r1; r2; r3; r4; alpha; beta]) = inr vs ->
     exists o osi',
       construct (SAWS f0 fi du s0 r1 r2 r3 r4 alpha beta) osi = (inr o, osi') /\
       op_type o = "SAWS" /\ _tag o = n + 1 /\
       _parameters o = PyStr (op_type o) :: PyInt (_tag o) :: vs) /\
  (forall fy sy fu su b big_r vs,
     sequence (map as_float [fy; sy; fu; su; b; big_r]) = inr vs ->
     exists o osi',
       construct (BondSP01 fy sy fu su b big_r) osi = (inr o, osi') /\
       op_type o = "Bond_SP01" /\ _tag o = n + 1 /\
       _parameters o = PyStr (op_type o) :: PyInt (_tag o) :: vs).
Proof.
  intros Hn. split; intros; unfold_init.
  - coercions_succeed H0.
    rewrite (bind_allocate _ _ _ _ Hn). cbv zeta. rewrite bind_to_process.
    eexists _, _. split; [reflexivity|]. cbn. auto.
  - coercions_succeed H0.
    rewrite (bind_allocate _ _ _ _ Hn). cbv zeta. rewrite bind_to_process.
    eexists _, _. split; [reflexivity|]. cbn. auto.
Qed.

(** C5 (amended).  [Cast] has the strictly ordered trailing optionals [a1],
    [a2], [a3], [a4].  With the counter at [n] and every given field
    coercible, construction succeeds whatever optionals are absent, and the
    encoded list ends with the optionals that come before the first absent
    one: when [a1] is absent, [a2], [a3] and [a4] are left out although [a2]
    and [a4] always hold a value.  No constructor ever raises
    [ParameterOrderError]. *)
Theorem trailing_optionals_stop_at_first_absent (osi : OpenseesInstance) (n : Z) :
  attrs osi !! "n_mat" = Some n ->
  (forall n_ bo h fy big_e big_l b ro c_r1 c_r2 a1 a2 a3 a4 req opt,
     sequence (as_int n_ :: map as_float [bo; h; fy; big_e; big_l; b; ro; c_r1; c_r2])
       = inr req ->
     sequence [py_float_opt a1; as_float a2; py_float_opt a3; as_float a4]
       = inr opt ->
     exists o osi',
       construct (Cast n_ bo h fy big_e big_l b ro c_r1 c_r2 a1 a2 a3 a4) osi = (inr o, osi') /\
       _parameters o = PyStr "Cast" :: PyInt (n + 1) :: req ++ until_absent opt /\
       (a1 = PyNone -> _parameters o = PyStr "Cast" :: PyInt (n + 1) :: req)) /\
  (forall c ctx e ctx', construct c ctx = (inl e, ctx') -> e <> ParameterOrderError).
Proof.
  intros Hn. split.
  - intros * Hreq Hopt. unfold_init.
    coercions_succeed Hreq. coercions_succeed Hopt.
    rewrite (bind_allocate _ _ _ _ Hn). cbv zeta.
    match goal with
    | |- context [special_pms_break [(?v1, _); (?v2, _); (?v3, _); (?v4, _)] ?ps] =>
        pose proof (special_pms_break_scalars [v1; v2; v3; v4] ps) as Hloop
    end.
    cbn [map] in Hloop. rewrite Hloop, bind_lift_inr, bind_to_process.
    eexists _, _. split; [reflexivity|]. cbn [_parameters]. split; [reflexivity|].
    intros ->. cbn [py_float_opt] in *.
    match goal with E : inr PyNone = inr _ |- _ => injection E as <- end.
    cbn [until_absent]. rewrite app_nil_r. reflexivity.
  - intros c ctx e ctx' Hfail ->.
    apply construct_raises_builtin in Hfail. discriminate.
Qed.

(** ** Flag blocks and references *)

Lemma flag_packet_opt_list flag o :
  flag_packet flag (opt_list o) = inr (flagged flag (fun l => l) o).
Proof. destruct o; reflexivity. Qed.

Lemma py_float_opt_opt_float o : py_float_opt (opt_float o) = inr (opt_float o).
Proof. destruct o; reflexivity. Qed.

Lemma flag_value_opt_float flag o :
  flag_value flag (opt_float o) = flagged flag (fun f => [PyFloat f]) o.
Proof. destruct o; reflexivity. Qed.

(** C6.  Flagged optional blocks.  In [ElasticMultiLinear] a provided packet
    contributes its marker immediately followed by its elements in order, so
    [stress=[0,1,2]] ends the list with ["-stress", 0, 1, 2]; an omitted
    packet contributes neither marker nor values; [strain] and [stress] are
    emitted in that order, each on its own.  The four blocks of [Fatigue]
    behave the same way with scalar values. *)
Theorem flagged_blocks_encoding (osi : OpenseesInstance) (n : Z) :
  attrs osi !! "n_mat" = Some n ->
  (forall eta e strain stress,
     py_float eta = inr e ->
     exists o osi',
       construct (ElasticMultiLinear eta (opt_list strain) (opt_list stress)) osi
         = (inr o, osi') /\
       _parameters o = [PyStr "ElasticMultiLinear"; PyInt (n + 1); PyFloat e]
                         ++ flagged "-strain" (fun l => l) strain
                         ++ flagged "-stress" (fun l => l) stress) /\
  (forall eta e strain,
     py_float eta = inr e ->
     exists o osi',
       construct (ElasticMultiLinear eta (opt_list strain)
                    (PyList [PyInt 0; PyInt 1; PyInt 2])) osi = (inr o, osi') /\
       _parameters o = ([PyStr "ElasticMultiLinear"; PyInt (n + 1); PyFloat e]
                          ++ flagged "-strain" (fun l => l) strain)
                         ++ [PyStr "-stress"; PyInt 0; PyInt 1; PyInt 2]) /\
  (forall (ref : OpenSeesObject) e0 m min max,
     exists o osi',
       construct (Fatigue (PyObj ref) (opt_float e0) (opt_float m) (opt_float min)
                    (opt_float max)) osi = (inr o, osi') /\
       _parameters o = [PyStr "Fatigue"; PyInt (n + 1); PyInt (_tag ref)]
                         ++ flagged "-E0" (fun f => [PyFloat f]) e0
                         ++ flagged "-m" (fun f => [PyFloat f]) m
                         ++ flagged "-min" (fun f => [PyFloat f]) min
                         ++ flagged "-max" (fun f => [PyFloat f]) max).
Proof.
  intros Hn.
  assert (Heml : forall eta e strain stress,
     py_float eta = inr e ->
     exists o osi',
       construct (ElasticMultiLinear eta (opt_list strain) (opt_list stress)) osi
         = (inr o, osi') /\
       _parameters o = [PyStr "ElasticMultiLinear"; PyInt (n + 1); PyFloat e]
                         ++ flagged "-strain" (fun l => l) strain
                         ++ flagged "-stress" (fun l => l) stress).
  { intros eta e strain stress He. unfold_init.
    rewrite He, bind_lift_inr, (bind_allocate _ _ _ _ Hn). cbv zeta.
    rewrite !flag_packet_opt_list, !bind_lift_inr, bind_to_process.
    eexists _, _. split; [reflexivity|]. cbn [_parameters].
    rewrite <- app_assoc. reflexivity. }
  split; [exact Heml|]. split.
  - intros eta e strain He.
    destruct (Heml eta e strain (Some [PyInt 0; PyInt 1; PyInt 2]) He) as (o & osi' & Hrun & Hp).
    exists o, osi'. split; [exact Hrun|]. rewrite Hp, <- app_assoc. reflexivity.
  - intros ref e0 m min max. unfold_init.
    rewrite !py_float_opt_opt_float, !bind_lift_inr, (bind_allocate _ _ _ _ Hn).
    cbn [tag_of]. rewrite bind_lift_inr. cbv zeta.
    rewrite !flag_value_opt_float, bind_to_process.
    eexists _, _. split; [reflexivity|]. cbn [_parameters].
    rewrite <- !app_assoc. reflexivity.
Qed.

Lemma MinMax_run osi n (ref : OpenSeesObject) min_strain max_strain :
  attrs osi !! "n_mat" = Some n ->
  exists o osi',
    construct (MinMax (PyObj ref) (opt_float min_strain) (opt_float max_strain)) osi
      = (inr o, osi') /\
    _parameters o = [PyStr "MinMax"; PyInt (n + 1); PyInt (_tag ref)]
                      ++ flagged "-min" (fun f => [PyFloat f]) min_strain
                      ++ flagged "-max" (fun f => [PyFloat f]) max_strain.
Proof.
  intros Hn. unfold_init.
  rewrite !py_float_opt_opt_float, !bind_lift_inr, (bind_allocate _ _ _ _ Hn).
  cbn [tag_of]. rewrite bind_lift_inr. cbv zeta.
  rewrite !flag_value_opt_float, bind_to_process.
  eexists _, _. split; [reflexivity|]. cbn [_parameters].
  rewrite <- !app_assoc. reflexivity.
Qed.

Lemma LimitState_run osi n (ref : OpenSeesObject)
    s1p e1p s2p e2p s3p e3p s1n e1n s2n e2n s3n e3n pinch_x pinch_y damage1 damage2 beta
    curve_type vs ct :
  attrs osi !! "n_mat" = Some n ->
  sequence (map as_float [s1p; e1p; s2p; e2p; s3p; e3p; s1n; e1n; s2n; e2n; s3n; e3n;
                          pinch_x; pinch_y; damage1; damage2; beta]) = inr vs ->
  py_int curve_type = inr ct ->
  exists o osi',
    construct (LimitState s1p e1p s2p e2p s3p e3p s1n e1n s2n e2n s3n e3n pinch_x
                 pinch_y damage1 damage2 beta (PyObj ref) curve_type) osi
      = (inr o, osi') /\
    _parameters o = PyStr "LimitState" :: PyInt (n + 1) :: vs
                      ++ [PyInt (_tag ref); PyInt ct].
Proof.
  intros Hn Hc Hct. unfold_init.
  coercions_succeed Hc.
  rewrite (bind_allocate _ _ _ _ Hn). cbn [tag_of]. rewrite bind_lift_inr. cbv zeta.
  rewrite bind_to_process.
  eexists _, _. split; reflexivity.
Qed.

(** C7.  A reference field is encoded as the referenced object's tag and as
    nothing else: in [MinMax] the token after the tag, in [LimitState] the
    token between [beta] and [curve_type].  Two referenced objects with the
    same tag give the same encoded list, whatever their other attributes. *)
Theorem reference_encodes_tag (osi : OpenseesInstance) (n : Z) (ref : OpenSeesObject) :
  attrs osi !! "n_mat" = Some n ->
  (forall min_strain max_strain,
     exists o osi',
       construct (MinMax (PyObj ref) (opt_float min_strain) (opt_float max_strain)) osi
         = (inr o, osi') /\
       _parameters o = [PyStr "MinMax"; PyInt (n + 1); PyInt (_tag ref)]
                         ++ flagged "-min" (fun f => [PyFloat f]) min_strain
                         ++ flagged "-max" (fun f => [PyFloat f]) max_strain /\
       forall ref' : OpenSeesObject, _tag ref' = _tag ref ->
         exists o' osi'',
           construct (MinMax (PyObj ref') (opt_float min_strain) (opt_float max_strain)) osi
             = (inr o', osi'') /\
           _parameters o' = _parameters o) /\
  (forall s1p e1p s2p e2p s3p e3p s1n e1n s2n e2n s3n e3n pinch_x pinch_y damage1
          damage2 beta curve_type vs ct,
     sequence (map as_float [s1p; e1p; s2p; e2p; s3p; e3p; s1n; e1n; s2n; e2n; s3n; e3n;
                             pinch_x; pinch_y; damage1; damage2; beta]) = inr vs ->
     py_int curve_type = inr ct ->
     exists o osi',
       construct (LimitState s1p e1p s2p e2p s3p e3p s1n e1n s2n e2n s3n e3n pinch_x
                    pinch_y damage1 damage2 beta (PyObj ref) curve_type) osi
         = (inr o, osi') /\
       _parameters o = PyStr "LimitState" :: PyInt (n + 1) :: vs
                         ++ [PyInt (_tag ref); PyInt ct] /\
       forall ref' : OpenSeesObject, _tag ref' = _tag ref ->
         exists o' osi'',
           construct (LimitState s1p e1p s2p e2p s3p e3p s1n e1n s2n e2n s3n e3n pinch_x
                        pinch_y damage1 damage2 beta (PyObj ref') curve_type) osi
             = (inr o', osi'') /\
           _parameters o' = _parameters o).
Proof.
  intros Hn. split.
  - intros min_strain max_strain.
    destruct (MinMax_run osi n ref min_strain max_strain Hn) as (o & osi' & Hrun & Hp).
    exists o, osi'. split; [exact Hrun|]. split; [exact Hp|].
    intros ref' Htag.
    destruct (MinMax_run osi n ref' min_strain max_strain Hn) as (o' & osi'' & Hrun' & Hp').
    exists o', osi''. split; [exact Hrun'|]. rewrite Hp, Hp', Htag. reflexivity.
  - intros * Hc Hct.
    destruct (LimitState_run osi n ref _ _ _ _ _ _ _ _ _ _ _ _ _ _ _ _ _ _ _ _ Hn Hc Hct)
      as (o & osi' & Hrun & Hp).
    exists o, osi'. split; [exact Hrun|]. split; [exact Hp|].
    intros ref' Htag.
    destruct (LimitState_run osi n ref' _ _ _ _ _ _ _ _ _ _ _ _ _ _ _ _ _ _ _ _ Hn Hc Hct)
      as (o' & osi'' & Hrun' & Hp').
    exists o', osi''. split; [exact Hrun'|]. rewrite Hp, Hp', Htag. reflexivity.
Qed.

(** C8 (amended).  A reference field holding a value that is not a command
    object makes [PathIndependent] and [Fatigue] fail with the built-in
    [AttributeError] on [tag], raised while the parameter list is assembled
    and before anything is dispatched.  An object built by any constructor
    under any context, the same or another, is accepted and its tag encoded.
    No constructor ever raises [ReferenceError] or [ContextMismatchError]. *)
Theorem reference_without_tag_raises_attribute_error (osi : OpenseesInstance) (n : Z) :
  attrs osi !! "n_mat" = Some n ->
  (forall other,
     has_tag other = false ->
     exists osi',
       construct (PathIndependent other) osi = (inl (AttributeError "tag"), osi') /\
       commands osi' = commands osi) /\
  (forall other e0 m min max,
     has_tag other = false ->
     exists osi',
       construct (Fatigue other (opt_float e0) (opt_float m) (opt_float min) (opt_float max))
         osi = (inl (AttributeError "tag"), osi') /\
       commands osi' = commands osi) /\
  (forall c0 osi0 ref osi0',
     construct c0 osi0 = (inr ref, osi0') ->
     exists o osi',
       construct (PathIndependent (PyObj ref)) osi = (inr o, osi') /\
       _parameters o = [PyStr "PathIndependent"; PyInt (n + 1); PyInt (_tag ref)]) /\
  (forall c ctx e ctx',
     construct c ctx = (inl e, ctx') -> e <> ReferenceError /\ e <> ContextMismatchError).
Proof.
  intros Hn. repeat split.
  - intros other Hother. unfold_init. rewrite (bind_allocate _ _ _ _ Hn).
    destruct other; try discriminate Hother; cbn [tag_of]; rewrite bind_lift_inl;
      eexists; split; reflexivity.
  - intros other e0 m min max Hother. unfold_init.
    rewrite !py_float_opt_opt_float, !bind_lift_inr, (bind_allocate _ _ _ _ Hn).
    destruct other; try discriminate Hother; cbn [tag_of]; rewrite bind_lift_inl;
      eexists; split; reflexivity.
  - intros c0 osi0 ref osi0' _. unfold_init. rewrite (bind_allocate _ _ _ _ Hn).
    cbn [tag_of]. rewrite bind_lift_inr. cbv zeta. rewrite bind_to_process.
    eexists _, _. split; reflexivity.
  - intros ->. apply construct_raises_builtin in H0. discriminate.
  - intros ->. apply construct_raises_builtin in H0. discriminate.
Qed.

(** ** Tags and dispatch order *)

(** C9.  A constructor that returns has handed exactly one list to the
    backend, its own parameter list, placed after everything received before.
    Hence, when a construction script runs to its end, one object has been
    built per step and the backend has received, after what it held at the
    start, exactly the parameter lists of these objects, once each and in
    construction order. *)
Theorem dispatch_follows_construction_order :
  (forall c osi o osi',
     construct c osi = (inr o, osi') ->
     commands osi' = commands osi ++ [_parameters o]) /\
  (forall (steps : list (list OpenSeesObject -> command)) osi objs osi',
     run_script steps [] osi = (inr objs, osi') ->
     length objs = length steps /\
     commands osi' = commands osi ++ map _parameters objs).
Proof.
  split; [exact construct_dispatches_once|].
  intros steps osi objs osi' Hrun.
  apply run_script_dispatch in Hrun as (new & -> & Hlen & Hcmd).
  cbn [app]. auto.
Qed.

(** The constructors of [other.py] and [layer.py] draw consecutive tags from
    [n_mat]: a script made of them, started with the counter at [n], builds
    objects tagged [n + 1], [n + 2], ... in construction order. *)
Theorem n_mat_tags_are_consecutive
    (steps : list (list OpenSeesObject -> command)) (osi osi' : OpenseesInstance)
    (n : Z) (objs : list OpenSeesObject) :
  Forall (fun step => forall b, counter_of (step b) = "n_mat") steps ->
  attrs osi !! "n_mat" = Some n ->
  run_script steps [] osi = (inr objs, osi') ->
  map _tag objs = seqZ (n + 1) (Z.of_nat (length steps)).
Proof.
  intros Hall Hn Hrun.
  destruct (run_script_tags _ _ _ _ _ _ Hall Hn Hrun) as (new & -> & Htags & _).
  exact Htags.
Qed.

(** ** Where the code departs from the specification *)

(** C1.  [Elastic] coerces [eneg] with an unguarded [float(eneg)]: with the
    default [eneg=None] the constructor never returns an object, and with
    numeric [big_e] and [eta] it raises [TypeError] before the context is
    touched. *)
Theorem Elastic_without_eneg_raises (osi : OpenseesInstance) :
  (forall big_e eta : float,
     construct (Elastic (PyFloat big_e) (PyFloat eta) PyNone) osi = (inl TypeError, osi)) /\
  (forall big_e eta, exists e, construct (Elastic big_e eta PyNone) osi = (inl e, osi)).
Proof.
  split.
  - reflexivity.
  - intros big_e eta. unfold_init.
    destruct (py_float big_e); [rewrite bind_lift_inl; eauto | rewrite bind_lift_inr].
    destruct (py_float eta); [rewrite bind_lift_inl; eauto | rewrite bind_lift_inr].
    cbn [py_float]. rewrite bind_lift_inl. eauto.
Qed.

(** C2.  [Elastic] increments [osi.n_mats] but takes its tag from [osi.mats],
    which no constructor writes: two [Elastic] objects built one after the
    other carry the same tag. *)
Theorem Elastic_tags_repeat (osi : OpenseesInstance) (n t : Z)
    (big_e eta eneg big_e' eta' eneg' : float) :
  attrs osi !! "n_mats" = Some n ->
  attrs osi !! "mats" = Some t ->
  exists o1 osi1 o2 osi2,
    construct (Elastic (PyFloat big_e) (PyFloat eta) (PyFloat eneg)) osi = (inr o1, osi1) /\
    construct (Elastic (PyFloat big_e') (PyFloat eta') (PyFloat eneg')) osi1 = (inr o2, osi2) /\
    _tag o1 = t /\ _tag o2 = t.
Proof.
  intros Hn Ht.
  assert (Hrun : forall osi n (a b c : float),
            attrs osi !! "n_mats" = Some n -> attrs osi !! "mats" = Some t ->
            exists o osi',
              construct (Elastic (PyFloat a) (PyFloat b) (PyFloat c)) osi = (inr o, osi') /\
              _tag o = t /\
              attrs osi' !! "n_mats" = Some (n + 1) /\ attrs osi' !! "mats" = Some t).
  { clear. intros osi n a b c Hn Ht. unfold_init. cbn [py_float].
    rewrite !bind_lift_inr, (bind_incr _ _ _ _ Hn).
    assert (Ht' : attrs (advance "n_mats" n osi) !! "mats" = Some t)
      by (cbn [advance attrs]; rewrite lookup_insert_ne by discriminate; exact Ht).
    rewrite (bind_getattr _ _ _ _ Ht'). cbv zeta. cbn [special_pms_skip].
    rewrite bind_lift_inr, bind_to_process.
    eexists _, _. split; [reflexivity|]. cbn. split; [reflexivity|]. split.
    - apply lookup_insert_eq.
    - rewrite lookup_insert_ne by discriminate. exact Ht. }
  destruct (Hrun osi n big_e eta eneg Hn Ht) as (o1 & osi1 & H1 & Ht1 & Hn1 & Hm1).
  destruct (Hrun osi1 (n + 1) big_e' eta' eneg' Hn1 Hm1) as (o2 & osi2 & H2 & Ht2 & _).
  exists o1, osi1, o2, osi2. auto.
Qed.

(** C3.  [Straight] allocates its tag from [n_mat], the counter of the
    uniaxial materials of [other.py]: building a layer advances that counter,
    and the material built next is tagged [n + 2], not [n + 1]. *)
Theorem layer_advances_material_counter (osi : OpenseesInstance) (n num_fiber : Z)
    (area_fiber big_e sigma_y h_iso h_kin eta : float) (start end_ : list pyval) :
  attrs osi !! "n_mat" = Some n ->
  exists layer osi1 mat osi2,
    construct (Straight (PyInt num_fiber) (PyFloat area_fiber) (PyList start) (PyList end_))
      osi = (inr layer, osi1) /\
    attrs osi1 !! "n_mat" = Some (n + 1) /\
    construct (Hardening (PyFloat big_e) (PyFloat sigma_y) (PyFloat h_iso) (PyFloat h_kin)
                 (PyFloat eta)) osi1 = (inr mat, osi2) /\
    _tag layer = n + 1 /\ _tag mat = n + 1 + 1.
Proof.
  intros Hn.
  assert (Hn1 : attrs (dispatched
                  ([PyStr "straight"; PyInt (n + 1); PyInt num_fiber; PyFloat area_fiber]
                     ++ start ++ end_) (advance "n_mat" n osi)) !! "n_mat" = Some (n + 1))
    by apply lookup_insert_eq.
  eexists _, _, _, _. split; [|split; [|split]].
  - unfold_init. cbn [py_int py_float unpack]. rewrite !bind_lift_inr.
    rewrite (bind_allocate _ _ _ _ Hn), !bind_lift_inr. cbv zeta.
    rewrite bind_to_process. reflexivity.
  - exact Hn1.
  - unfold_init. cbn [py_float]. rewrite !bind_lift_inr.
    rewrite (bind_allocate _ _ _ _ Hn1). cbv zeta. rewrite bind_to_process. reflexivity.
  - split; reflexivity.
Qed.

End Properties.

(** * Properties of the whole catalogue *)

Section CatalogueProperties.

Context `{PyRuntime}.

Ltac unfold_more :=
  cbn [construct_more];
  unfold ElasticPP_init, ElasticPPGap_init, ENT_init, Parallel_init, Series_init,
    ViscousDamper_init, BilinearOilDamper_init, Bilin_init, ModIMKPeakOriented_init,
    ModIMKPinching_init, BarSlip_init, ImpactMaterial_init, HyperbolicGapMaterial_init,
    ElasticBilin_init, MultiLinear_init, InitStrainMaterial_init, InitStressMaterial_init,
    ECC01_init, SelfCentering_init, Viscous_init, BoucWen_init, BWBN_init, AxialSp_init,
    AxialSpHD_init, CFSWSWP_init, CFSSSWP_init.

Ltac unfold_any :=
  match goal with
  | c : any_command |- _ => destruct c as [c|c]; cbn [construct_any]; destruct c
  end;
  cbn [construct];
  try unfold Elastic_init, Hardening_init, Cast_init, SAWS_init, BondSP01_init,
    Fatigue_init, LimitState_init, MinMax_init, ElasticMultiLinear_init,
    PathIndependent_init, Straight_init, Circ_init;
  try unfold_more.

(** One step through a constructor body, on a goal [body osi = outcome -> _]:
    case analysis on the step at the head. *)
Ltac step_body :=
  first
    [ rewrite bind_to_process
    | rewrite bind_ret
    | progress cbv zeta beta
    | lazymatch goal with
      | |- bind (lift ?r) _ _ = _ -> _ =>
          destruct r eqn:?; [ rewrite bind_lift_inl | rewrite bind_lift_inr ]
      | |- bind (incr_osi ?name) (fun _ => bind (getattr_osi ?name) _) ?osi = _ -> _ =>
          let L := fresh "Hcounter" in
          destruct (attrs osi !! name) eqn:L;
          [ rewrite (bind_allocate _ _ _ _ L) | rewrite (bind_allocate_missing _ _ _ L) ]
      | |- bind (incr_osi ?name) _ ?osi = _ -> _ =>
          let L := fresh "Hcounter" in
          destruct (attrs osi !! name) eqn:L;
          [ rewrite (bind_incr _ _ _ _ L) | rewrite (bind_incr_missing _ _ _ L) ]
      | |- bind (getattr_osi ?name) _ ?osi = _ -> _ =>
          let L := fresh "Hattr" in
          destruct (attrs osi !! name) eqn:L;
          [ rewrite (bind_getattr _ _ _ _ L) | rewrite (bind_getattr_missing _ _ _ L) ]
      end ].


Lemma special_pms_break_extends pms : forall parameters l,
  special_pms_break pms parameters = inr l -> exists ext, l = parameters ++ ext.
Proof.
  induction pms as [|[v packet] pms IH]; intros parameters l; cbn [special_pms_break].
  - intros [= <-]. exists []. rewrite app_nil_r. reflexivity.
  - destruct v, packet;
      try (intros [= <-]; exists []; rewrite app_nil_r; reflexivity);
      try (intros Hl; apply IH in Hl as [ext ->]; rewrite <- app_assoc; eauto);
      match goal with |- context [unpack ?x] => destruct (unpack x) end;
      try discriminate;
      intros Hl; apply IH in Hl as [ext ->]; rewrite <- app_assoc; eauto.
Qed.

Lemma special_pms_skip_extends pms : forall parameters l,
  special_pms_skip pms parameters = inr l -> exists ext, l = parameters ++ ext.
Proof.
  induction pms as [|[v packet] pms IH]; intros parameters l; cbn [special_pms_skip].
  - intros [= <-]. exists []. rewrite app_nil_r. reflexivity.
  - destruct v, packet;
      try (intros Hl; apply IH in Hl as [ext ->]; rewrite <- ?app_assoc; eauto; fail);
      match goal with |- context [unpack ?x] => destruct (unpack x) end;
      try discriminate;
      intros Hl; apply IH in Hl as [ext ->]; rewrite <- app_assoc; eauto.
Qed.

Ltac loops_extend :=
  repeat match goal with
         | E : special_pms_break _ _ = inr _ |- _ =>
             apply special_pms_break_extends in E as [? ->]
         | E : special_pms_skip _ _ = inr _ |- _ =>
             apply special_pms_skip_extends in E as [? ->]
         end.

(** ** What every constructor does *)

(** Every constructor of the three files that returns an object has put its
    [op_type] and then its tag at the head of the encoded list. *)
Theorem parameters_start_with_op_type_and_tag (c : any_command)
    (osi osi' : OpenseesInstance) (o : OpenSeesObject) :
  construct_any c osi = (inr o, osi') ->
  exists rest, _parameters o = PyStr (op_type o) :: PyInt (_tag o) :: rest.
Proof.
  unfold_any; repeat step_body; intros [= <- <-]; loops_extend;
    cbn [_parameters op_type _tag app]; eexists; reflexivity.
Qed.


(** A constructor that returns has changed the context in two ways only: its
    counter is one higher and the backend holds one more list, the object's
    own.  The object's tag is what the constructor's tag attribute holds
    afterwards. *)
Theorem successful_construction_frame (c : any_command) (osi osi' : OpenseesInstance)
    (o : OpenSeesObject) :
  construct_any c osi = (inr o, osi') ->
  exists n,
    attrs osi !! counter_of_any c = Some n /\
    osi' = dispatched (_parameters o) (advance (counter_of_any c) n osi) /\
    attrs osi' !! tag_attr_of_any c = Some (_tag o).
Proof.
  unfold_any; repeat step_body; intros [= <- <-];
    (eexists; split; [eassumption|]; split; [reflexivity|]);
    cbn [dispatched advance attrs _tag counter_of_any counter_of counter_of_more
         tag_attr_of_any tag_attr_of_more];
    first [ apply lookup_insert_eq | assumption ].
Qed.

(** Case analysis on the coercion at the head of a body, keeping the
    hypothesis [Hc] on the whole coercion sequence in step. *)
Ltac head_coercion Hc :=
  lazymatch goal with
  | |- bind (lift ?r) _ _ = _ =>
      let E := fresh "E" in
      destruct r eqn:E;
      [ rewrite bind_lift_inl | rewrite bind_lift_inr; cbv beta ];
      cbn [sequence] in Hc
  end.

(** In the constructors that [command] does not list as well, every coercion
    comes before the counter: one that raises makes the constructor fail with
    that exception and leaves the context exactly as it was. *)
Theorem coercion_failure_leaves_context_more (c : more_command) (osi : OpenseesInstance)
    (e : exn) :
  sequence (coercions_more c) = inl e ->
  construct_more c osi = (inl e, osi).
Proof.
  intros Hc.
  destruct c; cbn [coercions_more map app] in Hc; unfold_more;
    unfold as_float, as_int in Hc;
    repeat (head_coercion Hc; [congruence|]);
    cbn [sequence] in Hc; discriminate.
Qed.

(** ** Sessions *)


Lemma construct_any_attrs c osi r osi' :
  construct_any c osi = (r, osi') ->
  attrs osi' = attrs osi \/
  exists n, attrs osi !! counter_of_any c = Some n /\
            attrs osi' = <[counter_of_any c := n + 1]> (attrs osi).
Proof.
  unfold_any; repeat step_body; intros [= <- <-];
    first [ left; reflexivity | right; eexists; split; [eassumption | reflexivity] ].
Qed.

Lemma construct_any_tag c osi o osi' :
  construct_any c osi = (inr o, osi') ->
  attrs osi' !! tag_attr_of_any c = Some (_tag o).
Proof.
  unfold_any; repeat step_body; intros [= <- <-];
    cbn [dispatched advance attrs _tag tag_attr_of_any tag_attr_of_more];
    first [ apply lookup_insert_eq | assumption ].
Qed.

Lemma run_session_cons step rest built osi :
  run_session (step :: rest) built osi =
  match construct_any (step built) osi with
  | (inr o, osi1) => run_session rest (built ++ [o]) osi1
  | (inl e, osi1) => (inl e, osi1)
  end.
Proof. reflexivity. Qed.



Lemma construct_any_attribute c osi r osi' name n :
  construct_any c osi = (r, osi') ->
  attrs osi !! name = Some n ->
  exists n', attrs osi' !! name = Some n' /\ n <= n' <= n + 1.
Proof.
  intros Hrun Hn. apply construct_any_attrs in Hrun as [-> | (m & Hm & ->)].
  - exists n. split; [exact Hn | lia].
  - destruct (decide (counter_of_any c = name)) as [<- | Hne].
    + rewrite lookup_insert_eq. exists (m + 1). split; [reflexivity|].
      assert (m = n) by congruence. lia.
    + rewrite lookup_insert_ne by exact Hne. exists n. split; [exact Hn | lia].
Qed.

(** No attribute of the context is ever lost or lowered: through a session,
    finished or failed, each one grows by at most one per step. *)
Theorem counters_never_decrease
    (steps : list (list OpenSeesObject -> any_command)) (built : list OpenSeesObject)
    (osi osi' : OpenseesInstance) (r : exn + list OpenSeesObject) (name : string) (n : Z) :
  run_session steps built osi = (r, osi') ->
  attrs osi !! name = Some n ->
  exists n', attrs osi' !! name = Some n' /\ n <= n' <= n + Z.of_nat (length steps).
Proof.
  revert built osi n.
  induction steps as [|step rest IH]; intros built osi n.
  - intros [= <- <-] Hn. exists n. split; [exact Hn | cbn; lia].
  - rewrite run_session_cons.
    destruct (construct_any (step built) osi) as [[e|o] osi1] eqn:Hstep; intros Hrun Hn;
      destruct (construct_any_attribute _ _ _ _ _ _ Hstep Hn) as (n1 & Hn1 & Hle).
    + injection Hrun as <- <-. exists n1. split; [exact Hn1|]. cbn [length]. lia.
    + destruct (IH _ _ _ Hrun Hn1) as (n' & Hn' & Hle').
      exists n'. split; [exact Hn'|]. cbn [length]. lia.
Qed.

(** [osi.mats], the attribute the constructors of [standard.py] read their
    tag from, is written by no constructor: in a session made of them every
    object receives the value [mats] held at the start. *)
Theorem standard_tags_all_equal
    (steps : list (list OpenSeesObject -> any_command)) (osi osi' : OpenseesInstance)
    (objs : list OpenSeesObject) (t : Z) :
  Forall (fun step => forall b, tag_attr_of_any (step b) = "mats") steps ->
  attrs osi !! "mats" = Some t ->
  run_session steps [] osi = (inr objs, osi') ->
  map _tag objs = replicate (length steps) t /\ attrs osi' !! "mats" = Some t.
Proof.
  assert (Hgen : forall steps built osi,
            Forall (fun step => forall b, tag_attr_of_any (step b) = "mats") steps ->
            attrs osi !! "mats" = Some t ->
            run_session steps built osi = (inr objs, osi') ->
            exists new, objs = built ++ new /\
                        map _tag new = replicate (length steps) t /\
                        attrs osi' !! "mats" = Some t).
  { clear. induction steps as [|step rest IH]; intros built osi Hall Ht.
    - intros [= <- <-]. exists []. rewrite app_nil_r. auto.
    - rewrite run_session_cons.
      destruct (construct_any (step built) osi) as [[e|o] osi1] eqn:Hstep; [discriminate|].
      inversion Hall as [|? ? Hhead Htail]; subst.
      assert (Ht1 : attrs osi1 !! "mats" = Some t).
      { destruct (construct_any_attrs _ _ _ _ Hstep) as [-> | (m & _ & ->)]; [exact Ht|].
        rewrite lookup_insert_ne; [exact Ht|].
        specialize (Hhead built). destruct (step built) as [[]|[]]; cbn in *;
          discriminate. }
      pose proof (construct_any_tag _ _ _ _ Hstep) as Htag.
      rewrite (Hhead built), Ht1 in Htag. injection Htag as Htag.
      intros Hrest. destruct (IH _ _ Htail Ht1 Hrest) as (new & -> & Htags & Hm).
      exists (o :: new). rewrite <- app_assoc. cbn [map length replicate].
      rewrite Htags, <- Htag. auto. }
  intros Hall Ht Hrun. destruct (Hgen steps [] osi Hall Ht Hrun) as (new & -> & Htags & Hm).
  cbn [app]. auto.
Qed.

(** ** Encodings *)

(** Running a body whose coercions are known to succeed: the hypothesis [Hc]
    on the coercion sequence is split into one equation per coercion, and the
    body is run through them. *)
Ltac coercions_succeed Hc :=
  cbn [coercions coercions_more map app] in Hc;
  repeat (let a := fresh "a" in
          let l := fresh "l" in
          let E := fresh "E" in
          apply sequence_cons_inr in Hc; destruct Hc as (a & l & E & Hc & ->);
          first [ apply as_float_inr in E as (? & E & ->)
                | apply as_int_inr in E as (? & E & ->)
                | idtac ]);
  cbn [sequence] in Hc; injection Hc as <-;
  repeat match goal with
         | E : ?r = inr _ |- context [lift ?r] => rewrite E
         end;
  rewrite ?bind_lift_inr.

(** The fifteen constructors of [other.py] that coerce and emit every
    argument: with the counter at [n] and every argument coercible, the
    object is built with tag [n + 1] and its encoded list is [op_type], the
    tag, then the coerced arguments in signature order; the context gains
    the increment and the dispatched list. *)
Theorem coerced_arguments_encoding (c : more_command) (osi : OpenseesInstance) (n : Z)
    (vs : list pyval) :
  all_coerced c = true ->
  attrs osi !! "n_mat" = Some n ->
  sequence (coercions_more c) = inr vs ->
  exists o osi',
    construct_more c osi = (inr o, osi') /\
    osi' = dispatched (_parameters o) (advance "n_mat" n osi) /\
    _tag o = n + 1 /\
    _parameters o = PyStr (op_type o) :: PyInt (n + 1) :: vs.
Proof.
  intros Hall Hn Hc.
  destruct c; try discriminate Hall; unfold_more; coercions_succeed Hc;
    rewrite (bind_allocate _ _ _ _ Hn); cbv zeta; rewrite bind_to_process;
    eexists _, _; (split; [reflexivity|]); cbn; auto.
Qed.

(** [BarSlip] and [ElasticPPGap] take string options that they neither coerce
    nor check: whatever is passed is emitted as it is, after the coerced
    numbers.  In [BarSlip] the coerced [anc_lratio] comes before [bs_flag] and
    [otype], which precede it in the signature. *)
Theorem string_options_pass_through (osi : OpenseesInstance) :
  (forall n fc fy es fu eh db ld nb depth height bs_flag otype anc_lratio damage unit vs,
     attrs osi !! "n_mat" = Some n ->
     sequence (map as_float [fc; fy; es; fu; eh; db; ld] ++ [as_int nb]
                 ++ map as_float [depth; height; anc_lratio]) = inr vs ->
     exists o osi',
       construct_more (BarSlip fc fy es fu eh db ld nb depth height bs_flag otype
                         anc_lratio damage unit) osi = (inr o, osi') /\
       _parameters o = PyStr "BarSlip" :: PyInt (n + 1) :: vs
                         ++ [bs_flag; otype; damage; unit]) /\
  (forall n t op big_e fy gap eta damage vs,
     attrs osi !! "n_mats" = Some n ->
     attrs osi !! "mats" = Some t ->
     sequence (map as_float [big_e; fy; gap; eta]) = inr vs ->
     exists o osi',
       construct_more (ElasticPPGap (Some op) big_e fy gap eta damage) osi = (inr o, osi') /\
       _parameters o = PyStr op :: PyInt t :: vs ++ [damage]).
Proof.
  split.
  - intros * Hn Hc. unfold_more. coercions_succeed Hc.
    rewrite (bind_allocate _ _ _ _ Hn). cbv zeta. rewrite bind_to_process.
    eexists _, _. split; reflexivity.
  - intros * Hn Ht Hc. unfold_more. coercions_succeed Hc.
    rewrite (bind_incr _ _ _ _ Hn).
    assert (Ht' : attrs (advance "n_mats" n osi) !! "mats" = Some t)
      by (cbn [advance attrs]; rewrite lookup_insert_ne by discriminate; exact Ht).
    rewrite (bind_getattr _ _ _ _ Ht'). cbn [class_attr]. rewrite bind_lift_inr.
    cbv zeta. rewrite bind_to_process.
    eexists _, _. split; reflexivity.
Qed.

(** The [else: break] loops of [ElasticBilin] and [SelfCentering]: the
    encoded list ends with the optional fields that come before the first
    absent one.  With [en1] absent, [en2] and [eps_n2] are left out even when
    given. *)
Theorem break_loops_stop_at_first_absent (osi : OpenseesInstance) (n : Z) :
  attrs osi !! "n_mat" = Some n ->
  (forall ep1 ep2 eps_p2 en1 en2 eps_n2 req opt,
     sequence (map as_float [ep1; ep2; eps_p2]) = inr req ->
     sequence (map py_float_opt [en1; en2; eps_n2]) = inr opt ->
     exists o osi',
       construct_more (ElasticBilin ep1 ep2 eps_p2 en1 en2 eps_n2) osi = (inr o, osi') /\
       _parameters o = PyStr "ElasticBilin" :: PyInt (n + 1) :: req ++ until_absent opt /\
       (en1 = PyNone -> _parameters o = PyStr "ElasticBilin" :: PyInt (n + 1) :: req)) /\
  (forall k1 k2 sig_act beta eps_slip eps_bear r_bear req opt,
     sequence (map as_float [k1; k2; sig_act; beta; eps_slip; eps_bear]) = inr req ->
     py_float_opt r_bear = inr opt ->
     exists o osi',
       construct_more (SelfCentering k1 k2 sig_act beta eps_slip eps_bear r_bear) osi
         = (inr o, osi') /\
       _parameters o = PyStr "SelfCentering" :: PyInt (n + 1) :: req ++ until_absent [opt]).
Proof.
  intros Hn. split.
  - intros * Hreq Hopt. unfold_more.
    coercions_succeed Hreq. coercions_succeed Hopt.
    rewrite (bind_allocate _ _ _ _ Hn). cbv zeta.
    match goal with
    | |- context [special_pms_break [(?v1, _); (?v2, _); (?v3, _)] ?ps] =>
        pose proof (special_pms_break_scalars [v1; v2; v3] ps) as Hloop
    end.
    cbn [map] in Hloop. rewrite Hloop, bind_lift_inr, bind_to_process.
    eexists _, _. split; [reflexivity|]. cbn [_parameters]. split; [reflexivity|].
    intros ->. cbn [py_float_opt] in *.
    match goal with E : inr PyNone = inr _ |- _ => injection E as <- end.
    cbn [until_absent]. rewrite app_nil_r. reflexivity.
  - intros * Hreq Hopt. unfold_more.
    coercions_succeed Hreq.
    rewrite (bind_allocate _ _ _ _ Hn). cbv zeta.
    match goal with
    | |- context [special_pms_break [(?v1, _)] ?ps] =>
        pose proof (special_pms_break_scalars [v1] ps) as Hloop
    end.
    cbn [map] in Hloop. rewrite Hloop, bind_lift_inr, bind_to_process.
    eexists _, _. split; reflexivity.
Qed.

(** ** Packets, layers and references *)

(** [Parallel], [Series] and [MultiLinear] expand their packet in place,
    element by element and in order, without coercing or resolving anything:
    what is passed in [tags] or [pts] is what is emitted, a command object
    included.  An empty packet adds no token.  [Parallel] appends
    [factor_args] behind the marker ["-factor"] when it is given. *)
Theorem packets_expand_in_place (osi : OpenseesInstance) :
  (forall n t op tags factor_args,
     attrs osi !! "n_mats" = Some n ->
     attrs osi !! "mats" = Some t ->
     exists o osi',
       construct_more (Parallel (Some op) (PyList tags) (opt_list factor_args)) osi
         = (inr o, osi') /\
       _parameters o = [PyStr op; PyInt t] ++ tags
                         ++ flagged "-factor" (fun l => l) factor_args) /\
  (forall n t op tags,
     attrs osi !! "n_mats" = Some n ->
     attrs osi !! "mats" = Some t ->
     exists o osi',
       construct_more (Series (Some op) (PyList tags)) osi = (inr o, osi') /\
       _parameters o = [PyStr op; PyInt t] ++ tags) /\
  (forall n pts,
     attrs osi !! "n_mat" = Some n ->
     exists o osi',
       construct_more (MultiLinear (PyList pts)) osi = (inr o, osi') /\
       _parameters o = [PyStr "MultiLinear"; PyInt (n + 1)] ++ pts).
Proof.
  assert (Hmats : forall n t, attrs osi !! "mats" = Some t ->
                    attrs (advance "n_mats" n osi) !! "mats" = Some t).
  { intros n t Ht. cbn [advance attrs]. rewrite lookup_insert_ne by discriminate. exact Ht. }
  split; [|split].
  - intros n t op tags factor_args Hn Ht. unfold_more.
    rewrite (bind_incr _ _ _ _ Hn), (bind_getattr _ _ _ _ (Hmats n t Ht)).
    cbn [class_attr unpack]. rewrite !bind_lift_inr. cbv zeta.
    rewrite flag_packet_opt_list, bind_lift_inr, bind_to_process.
    eexists _, _. split; [reflexivity|]. cbn [_parameters].
    rewrite <- app_assoc. reflexivity.
  - intros n t op tags Hn Ht. unfold_more.
    rewrite (bind_incr _ _ _ _ Hn), (bind_getattr _ _ _ _ (Hmats n t Ht)).
    cbn [class_attr unpack]. rewrite !bind_lift_inr. cbv zeta.
    rewrite bind_to_process.
    eexists _, _. split; reflexivity.
  - intros n pts Hn. unfold_more.
    rewrite (bind_allocate _ _ _ _ Hn). cbn [unpack]. rewrite bind_lift_inr. cbv zeta.
    rewrite bind_to_process.
    eexists _, _. split; reflexivity.
Qed.

(** The two layers.  [Straight] emits [num_fiber] and [area_fiber] coerced,
    then the elements of [start] and of [end].  [Circ] emits the elements of
    [center], the coerced [radius], then the elements of [ang] with no marker
    in front: an empty [ang] is encoded exactly as an absent one. *)
Theorem layer_encoding (osi : OpenseesInstance) (n : Z) :
  attrs osi !! "n_mat" = Some n ->
  (forall num_fiber area_fiber start end_ k a,
     py_int num_fiber = inr k ->
     py_float area_fiber = inr a ->
     exists o osi',
       construct (Straight num_fiber area_fiber (PyList start) (PyList end_)) osi
         = (inr o, osi') /\
       _parameters o = [PyStr "straight"; PyInt (n + 1); PyInt k; PyFloat a]
                         ++ start ++ end_) /\
  (forall num_fiber area_fiber center radius ang k a r,
     py_int num_fiber = inr k ->
     py_float area_fiber = inr a ->
     py_float radius = inr r ->
     exists o osi',
       construct (Circ num_fiber area_fiber (PyList center) radius (opt_list ang)) osi
         = (inr o, osi') /\
       _parameters o = [PyStr "circ"; PyInt (n + 1); PyInt k; PyFloat a]
                         ++ center ++ [PyFloat r] ++ default [] ang /\
       exists o0 osi0,
         construct (Circ num_fiber area_fiber (PyList center) radius PyNone) osi
           = (inr o0, osi0) /\
         (ang = Some [] -> _parameters o = _parameters o0 /\ osi' = osi0)).
Proof.
  intros Hn.
  assert (Hcirc : forall num_fiber area_fiber center radius ang k a r,
     py_int num_fiber = inr k ->
     py_float area_fiber = inr a ->
     py_float radius = inr r ->
     exists o osi',
       construct (Circ num_fiber area_fiber (PyList center) radius (opt_list ang)) osi
         = (inr o, osi') /\
       _parameters o = [PyStr "circ"; PyInt (n + 1); PyInt k; PyFloat a]
                         ++ center ++ [PyFloat r] ++ default [] ang /\
       osi' = dispatched (_parameters o) (advance "n_mat" n osi)).
  { intros * Hk Ha Hr. cbn [construct]. unfold Circ_init.
    rewrite Hk, Ha, Hr, !bind_lift_inr, (bind_allocate _ _ _ _ Hn).
    cbn [unpack]. rewrite bind_lift_inr. cbv zeta.
    replace (extend_opt (opt_list ang)) with (@inr exn _ (default [] ang))
      by (destruct ang; reflexivity).
    rewrite bind_lift_inr, bind_to_process.
    eexists _, _. split; [reflexivity|]. cbn [_parameters].
    rewrite <- !app_assoc. split; reflexivity. }
  split.
  - intros * Hk Ha. cbn [construct]. unfold Straight_init.
    rewrite Hk, Ha, !bind_lift_inr, (bind_allocate _ _ _ _ Hn).
    cbn [unpack]. rewrite !bind_lift_inr. cbv zeta. rewrite bind_to_process.
    eexists _, _. split; reflexivity.
  - intros * Hk Ha Hr.
    destruct (Hcirc _ _ center _ ang _ _ _ Hk Ha Hr) as (o & osi' & Hrun & Hp & Hs).
    destruct (Hcirc _ _ center _ None _ _ _ Hk Ha Hr) as (o0 & osi0 & Hrun0 & Hp0 & Hs0).
    exists o, osi'. split; [exact Hrun|]. split; [exact Hp|].
    exists o0, osi0. split; [exact Hrun0|].
    intros ->. assert (Heq : _parameters o = _parameters o0) by (rewrite Hp, Hp0; reflexivity).
    split; [exact Heq|]. rewrite Hs, Hs0, Heq. reflexivity.
Qed.

(** [InitStrainMaterial] and [InitStressMaterial] encode the material they
    wrap as its tag, followed by the coerced initial value. *)
Theorem init_materials_encode_reference (osi : OpenseesInstance) (n : Z)
    (ref : OpenSeesObject) :
  attrs osi !! "n_mat" = Some n ->
  (forall init_strain x,
     py_float init_strain = inr x ->
     exists o osi',
       construct_more (InitStrainMaterial (PyObj ref) init_strain) osi = (inr o, osi') /\
       _parameters o = [PyStr "InitStrainMaterial"; PyInt (n + 1); PyInt (_tag ref);
                        PyFloat x]) /\
  (forall init_stress x,
     py_float init_stress = inr x ->
     exists o osi',
       construct_more (InitStressMaterial (PyObj ref) init_stress) osi = (inr o, osi') /\
       _parameters o = [PyStr "InitStressMaterial"; PyInt (n + 1); PyInt (_tag ref);
                        PyFloat x]).
Proof.
  intros Hn. split; intros v x Hx; unfold_more;
    rewrite Hx, bind_lift_inr, (bind_allocate _ _ _ _ Hn); cbn [tag_of];
    rewrite bind_lift_inr; cbv zeta; rewrite bind_to_process;
    eexists _, _; split; reflexivity.
Qed.

(** The complement of the coercion rule: a constructor whose coercions all
    succeed and whose counter exists, and which fails all the same (a
    reference without a tag, a packet that is not iterable, a missing
    [osi.mats] or [op_type]), fails after the increment.  The tag it would
    have carried is consumed. *)
Theorem late_failure_consumes_a_tag (c : any_command) (osi osi' : OpenseesInstance)
    (e : exn) (n : Z) (vs : list pyval) :
  sequence (coercions_any c) = inr vs ->
  attrs osi !! counter_of_any c = Some n ->
  construct_any c osi = (inl e, osi') ->
  osi' = advance (counter_of_any c) n osi /\
  attrs osi' !! counter_of_any c = Some (n + 1).
Proof.
  intros Hc Hn. revert Hn.
  unfold_any; cbn [coercions_any counter_of_any counter_of counter_of_more] in *;
    coercions_succeed Hc; intros Hn;
    repeat step_body; intros [= <- <-];
    try discriminate;
    try match goal with
        | E : special_pms_skip _ _ = inl _ |- _ => cbn [special_pms_skip] in E; discriminate E
        | E : special_pms_break ?l ?ps = inl _ |- _ =>
            let vs := eval cbn [map fst] in (map fst l) in
            rewrite (special_pms_break_scalars vs ps : special_pms_break l ps = _) in E;
            discriminate E
        end;
    simplify_eq; (split; [reflexivity | apply lookup_insert_eq]).
Qed.

(** ** standard.py *)

(** The constructors of [standard.py] coerce their optional fields with an
    unguarded [float]: [ElasticPP] called with [epsy_n] absent, its default,
    never returns an object and leaves the context untouched.  When [Elastic],
    [ElasticPP] or [ENT] do return, every field, optional ones included, is in
    the encoded list, after the [op_type] and the tag read from [osi.mats]. *)
Theorem standard_optionals_are_always_emitted (osi : OpenseesInstance) :
  (forall op big_e epsy_p eps0,
     exists e, construct_more (ElasticPP op big_e epsy_p PyNone eps0) osi = (inl e, osi)) /\
  (forall n t op big_e epsy_p epsy_n eps0 vs,
     attrs osi !! "n_mats" = Some n ->
     attrs osi !! "mats" = Some t ->
     sequence (map as_float [big_e; epsy_p; epsy_n; eps0]) = inr vs ->
     exists o osi',
       construct_more (ElasticPP (Some op) big_e epsy_p epsy_n eps0) osi = (inr o, osi') /\
       _parameters o = PyStr op :: PyInt t :: vs) /\
  (forall n t big_e eta eneg vs,
     attrs osi !! "n_mats" = Some n ->
     attrs osi !! "mats" = Some t ->
     sequence (map as_float [big_e; eta; eneg]) = inr vs ->
     exists o osi',
       construct (Elastic big_e eta eneg) osi = (inr o, osi') /\
       _parameters o = PyStr "Elastic" :: PyInt t :: vs) /\
  (forall n t op big_e vs,
     attrs osi !! "n_mats" = Some n ->
     attrs osi !! "mats" = Some t ->
     sequence [as_float big_e] = inr vs ->
     exists o osi',
       construct_more (ENT (Some op) big_e) osi = (inr o, osi') /\
       _parameters o = PyStr op :: PyInt t :: vs).
Proof.
  assert (Hmats : forall n t, attrs osi !! "mats" = Some t ->
                    attrs (advance "n_mats" n osi) !! "mats" = Some t).
  { intros n t Ht. cbn [advance attrs]. rewrite lookup_insert_ne by discriminate. exact Ht. }
  split; [|split; [|split]].
  - intros op big_e epsy_p eps0. unfold_more.
    destruct (py_float big_e); [rewrite bind_lift_inl; eauto | rewrite bind_lift_inr].
    destruct (py_float epsy_p); [rewrite bind_lift_inl; eauto | rewrite bind_lift_inr].
    cbn [py_float]. rewrite bind_lift_inl. eauto.
  - intros * Hn Ht Hc. unfold_more. coercions_succeed Hc.
    rewrite (bind_incr _ _ _ _ Hn), (bind_getattr _ _ _ _ (Hmats n t Ht)).
    cbn [class_attr special_pms_skip]. cbv zeta. rewrite ?bind_lift_inr, bind_to_process.
    eexists _, _. split; reflexivity.
  - intros * Hn Ht Hc. cbn [construct]. unfold Elastic_init. coercions_succeed Hc.
    rewrite (bind_incr _ _ _ _ Hn), (bind_getattr _ _ _ _ (Hmats n t Ht)).
    cbn [special_pms_skip]. cbv zeta. rewrite ?bind_lift_inr, bind_to_process.
    eexists _, _. split; reflexivity.
  - intros * Hn Ht Hc. unfold_more. coercions_succeed Hc.
    rewrite (bind_incr _ _ _ _ Hn), (bind_getattr _ _ _ _ (Hmats n t Ht)).
    cbn [class_attr]. cbv zeta. rewrite ?bind_lift_inr, bind_to_process.
    eexists _, _. split; reflexivity.
Qed.

End CatalogueProperties.


(** * Closed instances

    The statements above at concrete inputs.  Nothing here coerces text, so
    the runtime's parsers play no part. *)

#[local] Existing Instance no_text_runtime.

Lemma fresh_n_mat : attrs OpenseesInstance_init !! "n_mat" = Some 0.
Proof. vm_compute. reflexivity. Qed.

Lemma sample_n_mat : attrs sample_context !! "n_mat" = Some 4.
Proof. vm_compute. reflexivity. Qed.

(** What the backend has received at the end of the sample session. *)
Example sample_commands :
  commands sample_context =
  [ [PyStr "Hardening"; PyInt 1; PyFloat 2e8; PyFloat 250; PyFloat 0; PyFloat 1e6; PyFloat 0];
    [PyStr "MinMax"; PyInt 2; PyInt 1; PyStr "-min"; PyFloat (-0.125)];
    [PyStr "Bond_SP01"; PyInt 3; PyFloat 60; PyFloat 0.5; PyFloat 90; PyFloat 2;
     PyFloat 0.5; PyFloat 0.75];
    [PyStr "circ"; PyInt 4; PyInt 8; PyFloat 0.25; PyFloat 0; PyFloat 0; PyFloat 1.5] ].
Proof. vm_compute. reflexivity. Qed.

Lemma required_fields_encoding_witness :
  attrs OpenseesInstance_init !! "n_mat" = Some 0 /\
  exists o osi',
    construct (BondSP01 (PyFloat 60) (PyInt 1) (PyFloat 90) (PyFloat 2) (PyFloat 0.5)
                 (PyFloat 0.75)) OpenseesInstance_init = (inr o, osi') /\
    op_type o = "Bond_SP01" /\ _tag o = 0 + 1 /\
    _parameters o = PyStr (op_type o) :: PyInt (_tag o)
                      :: [PyFloat 60; PyFloat 1; PyFloat 90; PyFloat 2; PyFloat 0.5;
                          PyFloat 0.75].
Proof.
  split; [exact fresh_n_mat|].
  apply (proj2 (required_fields_encoding OpenseesInstance_init 0 fresh_n_mat)).
  vm_compute. reflexivity.
Defined.

Lemma Cast_skips_a2_after_absent_a1 :
  exists o osi',
    construct sample_cast OpenseesInstance_init = (inr o, osi') /\
    _parameters o =
      [PyStr "Cast"; PyInt 1; PyInt 4; PyFloat 10; PyFloat 1; PyFloat 250; PyFloat 2e8;
       PyFloat 100; PyFloat 0.5; PyFloat 20; PyFloat 0.75; PyFloat 0.125] /\
    commands osi' = [_parameters o].
Proof. eexists _, _. split; [vm_compute; reflexivity|]. split; reflexivity. Defined.

Lemma trailing_optionals_stop_at_first_absent_witness :
  attrs OpenseesInstance_init !! "n_mat" = Some 0 /\
  exists o osi',
    construct sample_cast OpenseesInstance_init = (inr o, osi') /\
    _parameters o =
      PyStr "Cast" :: PyInt (0 + 1)
        :: [PyInt 4; PyFloat 10; PyFloat 1; PyFloat 250; PyFloat 2e8; PyFloat 100;
            PyFloat 0.5; PyFloat 20; PyFloat 0.75; PyFloat 0.125]
        ++ until_absent [PyNone; PyFloat 5; PyNone; PyFloat 1] /\
    (PyNone = PyNone ->
     _parameters o =
       PyStr "Cast" :: PyInt (0 + 1)
         :: [PyInt 4; PyFloat 10; PyFloat 1; PyFloat 250; PyFloat 2e8; PyFloat 100;
             PyFloat 0.5; PyFloat 20; PyFloat 0.75; PyFloat 0.125]).
Proof.
  split; [exact fresh_n_mat|].
  apply (proj1 (trailing_optionals_stop_at_first_absent OpenseesInstance_init 0 fresh_n_mat));
    vm_compute; reflexivity.
Defined.

Lemma flagged_blocks_encoding_witness :
  attrs OpenseesInstance_init !! "n_mat" = Some 0 /\
  py_float (PyFloat 0) = inr 0%float /\
  exists o osi',
    construct (ElasticMultiLinear (PyFloat 0) PyNone (PyList [PyInt 0; PyInt 1; PyInt 2]))
      OpenseesInstance_init = (inr o, osi') /\
    _parameters o = [PyStr "ElasticMultiLinear"; PyInt 1; PyFloat 0;
                     PyStr "-stress"; PyInt 0; PyInt 1; PyInt 2].
Proof.
  split; [exact fresh_n_mat|]. split; [reflexivity|].
  destruct (flagged_blocks_encoding OpenseesInstance_init 0 fresh_n_mat) as (_ & Hstress & _).
  exact (Hstress (PyFloat 0) 0%float None eq_refl).
Defined.

Lemma reference_encodes_tag_witness :
  attrs sample_context !! "n_mat" = Some 4 /\
  _tag sample_material = 3 /\
  exists o osi',
    construct (MinMax (PyObj sample_material) PyNone (PyFloat 0.5)) sample_context
      = (inr o, osi') /\
    _parameters o = [PyStr "MinMax"; PyInt 5; PyInt 3; PyStr "-max"; PyFloat 0.5].
Proof.
  split; [exact sample_n_mat|]. split; [vm_compute; reflexivity|].
  destruct (proj1 (reference_encodes_tag sample_context 4 sample_material sample_n_mat)
              None (Some 0.5%float)) as (o & osi' & Hrun & Hp & _).
  exists o, osi'. split; [exact Hrun|]. rewrite Hp. vm_compute. reflexivity.
Defined.

Lemma foreign_reference_is_accepted :
  _tag sample_material = 3 /\
  (exists o osi',
     construct (PathIndependent (PyObj sample_material)) OpenseesInstance_init
       = (inr o, osi') /\
     _parameters o = [PyStr "PathIndependent"; PyInt 1; PyInt 3]) /\
  (exists osi',
     construct (PathIndependent PyNone) OpenseesInstance_init
       = (inl (AttributeError "tag"), osi') /\
     attrs osi' !! "n_mat" = Some 1 /\ commands osi' = []).
Proof.
  split; [vm_compute; reflexivity|]. split.
  - eexists _, _. split; [vm_compute; reflexivity|]. reflexivity.
  - eexists. split; [vm_compute; reflexivity|]. split; vm_compute; reflexivity.
Defined.

Lemma reference_without_tag_raises_attribute_error_witness :
  attrs OpenseesInstance_init !! "n_mat" = Some 0 /\
  has_tag PyNone = false /\
  exists osi',
    construct (PathIndependent PyNone) OpenseesInstance_init
      = (inl (AttributeError "tag"), osi') /\
    commands osi' = commands OpenseesInstance_init.
Proof.
  split; [exact fresh_n_mat|]. split; [reflexivity|].
  exact (proj1 (reference_without_tag_raises_attribute_error OpenseesInstance_init 0
                  fresh_n_mat) PyNone eq_refl).
Defined.

Lemma sample_run_succeeds :
  run_script sample_script [] OpenseesInstance_init = (inr sample_objects, sample_context).
Proof. vm_compute. reflexivity. Qed.

Lemma dispatch_follows_construction_order_witness :
  run_script sample_script [] OpenseesInstance_init = (inr sample_objects, sample_context) /\
  length sample_objects = length sample_script /\
  commands sample_context =
    commands OpenseesInstance_init ++ map _parameters sample_objects.
Proof.
  split; [exact sample_run_succeeds|].
  exact (proj2 dispatch_follows_construction_order sample_script OpenseesInstance_init
           sample_objects sample_context sample_run_succeeds).
Defined.

Lemma n_mat_tags_are_consecutive_witness :
  Forall (fun step => forall b, counter_of (step b) = "n_mat") sample_script /\
  attrs OpenseesInstance_init !! "n_mat" = Some 0 /\
  run_script sample_script [] OpenseesInstance_init = (inr sample_objects, sample_context) /\
  map _tag sample_objects = seqZ (0 + 1) (Z.of_nat (length sample_script)).
Proof.
  assert (Hall : Forall (fun step => forall b, counter_of (step b) = "n_mat") sample_script)
    by (repeat constructor).
  split; [exact Hall|]. split; [exact fresh_n_mat|]. split; [exact sample_run_succeeds|].
  exact (n_mat_tags_are_consecutive sample_script OpenseesInstance_init sample_context 0
           sample_objects Hall fresh_n_mat sample_run_succeeds).
Defined.

Lemma coercion_failure_leaves_context_witness :
  sequence (coercions (Hardening (PyFloat 2e8) PyNone (PyInt 0) (PyFloat 1e6) (PyFloat 0)))
    = inl TypeError /\
  construct (Hardening (PyFloat 2e8) PyNone (PyInt 0) (PyFloat 1e6) (PyFloat 0)) sample_context
    = (inl TypeError, sample_context).
Proof.
  split; [reflexivity|].
  apply coercion_failure_leaves_context. reflexivity.
Defined.

Lemma Elastic_tags_repeat_witness :
  attrs OpenseesInstance_init !! "n_mats" = Some 0 /\
  attrs OpenseesInstance_init !! "mats" = Some 0 /\
  exists o1 osi1 o2 osi2,
    construct (Elastic (PyFloat 2e8) (PyFloat 0) (PyFloat 1e8)) OpenseesInstance_init
      = (inr o1, osi1) /\
    construct (Elastic (PyFloat 2e8) (PyFloat 0) (PyFloat 1e8)) osi1 = (inr o2, osi2) /\
    _tag o1 = 0 /\ _tag o2 = 0.
Proof.
  assert (Hn : attrs OpenseesInstance_init !! "n_mats" = Some 0) by (vm_compute; reflexivity).
  assert (Ht : attrs OpenseesInstance_init !! "mats" = Some 0) by (vm_compute; reflexivity).
  split; [exact Hn|]. split; [exact Ht|].
  exact (Elastic_tags_repeat OpenseesInstance_init 0 0 2e8 0 1e8 2e8 0 1e8 Hn Ht).
Defined.

Lemma layer_advances_material_counter_witness :
  attrs OpenseesInstance_init !! "n_mat" = Some 0 /\
  exists layer osi1 mat osi2,
    construct (Straight (PyInt 4) (PyFloat 0.25) (PyList [PyFloat 0; PyFloat 0])
                 (PyList [PyFloat 1; PyFloat 0])) OpenseesInstance_init = (inr layer, osi1) /\
    attrs osi1 !! "n_mat" = Some (0 + 1) /\
    construct (Hardening (PyFloat 2e8) (PyFloat 250) (PyFloat 0) (PyFloat 1e6) (PyFloat 0))
      osi1 = (inr mat, osi2) /\
    _tag layer = 0 + 1 /\ _tag mat = 0 + 1 + 1.
Proof.
  split; [exact fresh_n_mat|].
  exact (layer_advances_material_counter OpenseesInstance_init 0 4 0.25 2e8 250 0 1e6 0
           [PyFloat 0; PyFloat 0] [PyFloat 1; PyFloat 0] fresh_n_mat).
Defined.

(** ** The whole catalogue *)

Lemma fresh_n_mats : attrs OpenseesInstance_init !! "n_mats" = Some 0.
Proof. vm_compute. reflexivity. Qed.

Lemma fresh_mats : attrs OpenseesInstance_init !! "mats" = Some 0.
Proof. vm_compute. reflexivity. Qed.

Lemma sample_dashpot_built :
  construct_any (inr sample_viscous) OpenseesInstance_init
  = (inr sample_dashpot, sample_dashpot_context).
Proof. vm_compute. reflexivity. Qed.

Lemma sample_session_fails :
  run_session sample_session [] OpenseesInstance_init
  = (inl (AttributeError "tag"), sample_session_context).
Proof. vm_compute. reflexivity. Qed.

Lemma sample_standard_succeeds :
  run_session sample_standard_session [] OpenseesInstance_init
  = (inr sample_standard_objects, sample_standard_context).
Proof. vm_compute. reflexivity. Qed.

(** What the backend holds after the failed session, and the counter. *)
Example sample_session_outcome :
  commands sample_session_context =
    [ [PyStr "Viscous"; PyInt 1; PyFloat 640; PyFloat 1];
      [PyStr "InitStrainMaterial"; PyInt 2; PyInt 1; PyFloat 0.125] ] /\
  attrs sample_session_context !! "n_mat" = Some 3.
Proof. split; vm_compute; reflexivity. Qed.

Lemma parameters_start_with_op_type_and_tag_witness :
  construct_any (inr sample_viscous) OpenseesInstance_init
    = (inr sample_dashpot, sample_dashpot_context) /\
  exists rest,
    _parameters sample_dashpot
    = PyStr (op_type sample_dashpot) :: PyInt (_tag sample_dashpot) :: rest.
Proof.
  split; [exact sample_dashpot_built|].
  exact (parameters_start_with_op_type_and_tag (inr sample_viscous) OpenseesInstance_init
           sample_dashpot_context sample_dashpot sample_dashpot_built).
Defined.


Lemma successful_construction_frame_witness :
  construct_any (inr sample_viscous) OpenseesInstance_init
    = (inr sample_dashpot, sample_dashpot_context) /\
  exists n,
    attrs OpenseesInstance_init !! counter_of_any (inr sample_viscous) = Some n /\
    sample_dashpot_context
    = dispatched (_parameters sample_dashpot)
        (advance (counter_of_any (inr sample_viscous)) n OpenseesInstance_init) /\
    attrs sample_dashpot_context !! tag_attr_of_any (inr sample_viscous)
    = Some (_tag sample_dashpot).
Proof.
  split; [exact sample_dashpot_built|].
  exact (successful_construction_frame _ _ _ _ sample_dashpot_built).
Defined.

Lemma coercion_failure_leaves_context_more_witness :
  sequence (coercions_more (Viscous (PyFloat 640) PyNone)) = inl TypeError /\
  construct_more (Viscous (PyFloat 640) PyNone) sample_context
    = (inl TypeError, sample_context).
Proof.
  split; [reflexivity|].
  apply coercion_failure_leaves_context_more. reflexivity.
Defined.


Lemma counters_never_decrease_witness :
  run_session sample_session [] OpenseesInstance_init
    = (inl (AttributeError "tag"), sample_session_context) /\
  attrs OpenseesInstance_init !! "n_mat" = Some 0 /\
  exists n',
    attrs sample_session_context !! "n_mat" = Some n' /\
    0 <= n' <= 0 + Z.of_nat (length sample_session).
Proof.
  split; [exact sample_session_fails|]. split; [exact fresh_n_mat|].
  exact (counters_never_decrease sample_session [] OpenseesInstance_init
           sample_session_context _ "n_mat" 0 sample_session_fails fresh_n_mat).
Defined.

Lemma standard_tags_all_equal_witness :
  Forall (fun step => forall b, tag_attr_of_any (step b) = "mats") sample_standard_session /\
  attrs OpenseesInstance_init !! "mats" = Some 0 /\
  run_session sample_standard_session [] OpenseesInstance_init
    = (inr sample_standard_objects, sample_standard_context) /\
  map _tag sample_standard_objects = replicate (length sample_standard_session) 0 /\
  attrs sample_standard_context !! "mats" = Some 0.
Proof.
  assert (Hall : Forall (fun step => forall b, tag_attr_of_any (step b) = "mats")
                   sample_standard_session) by (repeat constructor).
  split; [exact Hall|]. split; [exact fresh_mats|]. split; [exact sample_standard_succeeds|].
  exact (standard_tags_all_equal sample_standard_session OpenseesInstance_init
           sample_standard_context sample_standard_objects 0 Hall fresh_mats
           sample_standard_succeeds).
Defined.

Lemma coerced_arguments_encoding_witness :
  all_coerced sample_viscous = true /\
  attrs OpenseesInstance_init !! "n_mat" = Some 0 /\
  sequence (coercions_more sample_viscous) = inr [PyFloat 640; PyFloat 1] /\
  exists o osi',
    construct_more sample_viscous OpenseesInstance_init = (inr o, osi') /\
    osi' = dispatched (_parameters o) (advance "n_mat" 0 OpenseesInstance_init) /\
    _tag o = 0 + 1 /\
    _parameters o = PyStr (op_type o) :: PyInt (0 + 1) :: [PyFloat 640; PyFloat 1].
Proof.
  split; [reflexivity|]. split; [exact fresh_n_mat|]. split; [reflexivity|].
  exact (coerced_arguments_encoding sample_viscous OpenseesInstance_init 0
           [PyFloat 640; PyFloat 1] eq_refl fresh_n_mat eq_refl).
Defined.

Lemma string_options_pass_through_witness :
  attrs OpenseesInstance_init !! "n_mats" = Some 0 /\
  attrs OpenseesInstance_init !! "mats" = Some 0 /\
  exists o osi',
    construct_more (ElasticPPGap (Some "ElasticPPGap") (PyFloat 2e8) (PyFloat 250)
                      (PyFloat 0.5) (PyFloat 0) (PyInt 7)) OpenseesInstance_init
      = (inr o, osi') /\
    _parameters o = PyStr "ElasticPPGap" :: PyInt 0
                      :: [PyFloat 2e8; PyFloat 250; PyFloat 0.5; PyFloat 0] ++ [PyInt 7].
Proof.
  split; [exact fresh_n_mats|]. split; [exact fresh_mats|].
  apply (proj2 (string_options_pass_through OpenseesInstance_init) 0 0);
    [exact fresh_n_mats | exact fresh_mats | reflexivity].
Defined.

Lemma break_loops_stop_at_first_absent_witness :
  attrs OpenseesInstance_init !! "n_mat" = Some 0 /\
  exists o osi',
    construct_more (ElasticBilin (PyFloat 100) (PyFloat 10) (PyFloat 0.5)
                      PyNone (PyFloat 5) (PyFloat 0.25)) OpenseesInstance_init
      = (inr o, osi') /\
    _parameters o = PyStr "ElasticBilin" :: PyInt (0 + 1)
                      :: [PyFloat 100; PyFloat 10; PyFloat 0.5]
                      ++ until_absent [PyNone; PyFloat 5; PyFloat 0.25] /\
    (PyNone = PyNone ->
     _parameters o = PyStr "ElasticBilin" :: PyInt (0 + 1)
                       :: [PyFloat 100; PyFloat 10; PyFloat 0.5]).
Proof.
  split; [exact fresh_n_mat|].
  apply (proj1 (break_loops_stop_at_first_absent OpenseesInstance_init 0 fresh_n_mat));
    reflexivity.
Defined.

Lemma packets_expand_in_place_witness :
  attrs OpenseesInstance_init !! "n_mats" = Some 0 /\
  attrs OpenseesInstance_init !! "mats" = Some 0 /\
  exists o osi',
    construct_more (Series (Some "Series") (PyList [PyObj sample_material; PyInt 2]))
      OpenseesInstance_init = (inr o, osi') /\
    _parameters o = [PyStr "Series"; PyInt 0] ++ [PyObj sample_material; PyInt 2].
Proof.
  split; [exact fresh_n_mats|]. split; [exact fresh_mats|].
  exact (proj1 (proj2 (packets_expand_in_place OpenseesInstance_init)) 0 0 "Series"
           [PyObj sample_material; PyInt 2] fresh_n_mats fresh_mats).
Defined.

Lemma layer_encoding_witness :
  attrs OpenseesInstance_init !! "n_mat" = Some 0 /\
  exists o osi',
    construct (Circ (PyInt 8) (PyFloat 0.25) (PyList [PyFloat 0; PyFloat 0]) (PyFloat 1.5)
                 (opt_list (Some []))) OpenseesInstance_init = (inr o, osi') /\
    _parameters o = [PyStr "circ"; PyInt (0 + 1); PyInt 8; PyFloat 0.25]
                      ++ [PyFloat 0; PyFloat 0] ++ [PyFloat 1.5] ++ default [] (Some []) /\
    exists o0 osi0,
      construct (Circ (PyInt 8) (PyFloat 0.25) (PyList [PyFloat 0; PyFloat 0]) (PyFloat 1.5)
                   PyNone) OpenseesInstance_init = (inr o0, osi0) /\
      (Some (@nil pyval) = Some [] -> _parameters o = _parameters o0 /\ osi' = osi0).
Proof.
  split; [exact fresh_n_mat|].
  apply (proj2 (layer_encoding OpenseesInstance_init 0 fresh_n_mat)); reflexivity.
Defined.

Lemma init_materials_encode_reference_witness :
  attrs sample_context !! "n_mat" = Some 4 /\
  py_float (PyFloat 0.125) = inr 0.125%float /\
  exists o osi',
    construct_more (InitStrainMaterial (PyObj sample_material) (PyFloat 0.125)) sample_context
      = (inr o, osi') /\
    _parameters o = [PyStr "InitStrainMaterial"; PyInt (4 + 1);
                     PyInt (_tag sample_material); PyFloat 0.125].
Proof.
  split; [exact sample_n_mat|]. split; [reflexivity|].
  exact (proj1 (init_materials_encode_reference sample_context 4 sample_material
                  sample_n_mat) (PyFloat 0.125) 0.125%float eq_refl).
Defined.

Lemma late_failure_consumes_a_tag_witness :
  sequence (coercions_any (inr (MultiLinear (PyInt 3)))) = inr [] /\
  attrs OpenseesInstance_init !! counter_of_any (inr (MultiLinear (PyInt 3))) = Some 0 /\
  construct_any (inr (MultiLinear (PyInt 3))) OpenseesInstance_init
    = (inl TypeError, advance "n_mat" 0 OpenseesInstance_init) /\
  advance "n_mat" 0 OpenseesInstance_init
    = advance (counter_of_any (inr (MultiLinear (PyInt 3)))) 0 OpenseesInstance_init /\
  attrs (advance "n_mat" 0 OpenseesInstance_init)
    !! counter_of_any (inr (MultiLinear (PyInt 3))) = Some (0 + 1).
Proof.
  assert (Hrun : construct_any (inr (MultiLinear (PyInt 3))) OpenseesInstance_init
                 = (inl TypeError, advance "n_mat" 0 OpenseesInstance_init))
    by (vm_compute; reflexivity).
  split; [reflexivity|]. split; [exact fresh_n_mat|]. split; [exact Hrun|].
  exact (late_failure_consumes_a_tag (inr (MultiLinear (PyInt 3))) OpenseesInstance_init
           _ TypeError 0 [] eq_refl fresh_n_mat Hrun).
Defined.

Lemma standard_optionals_are_always_emitted_witness :
  attrs OpenseesInstance_init !! "n_mats" = Some 0 /\
  attrs OpenseesInstance_init !! "mats" = Some 0 /\
  exists o osi',
    construct_more (ElasticPP (Some "ElasticPP") (PyFloat 2e8) (PyFloat 0.5) (PyFloat (-0.5))
                      (PyFloat 0)) OpenseesInstance_init = (inr o, osi') /\
    _parameters o = PyStr "ElasticPP" :: PyInt 0
                      :: [PyFloat 2e8; PyFloat 0.5; PyFloat (-0.5); PyFloat 0].
Proof.
  split; [exact fresh_n_mats|]. split; [exact fresh_mats|].
  apply (proj1 (proj2 (standard_optionals_are_always_emitted OpenseesInstance_init)) 0 0);
    [exact fresh_n_mats | exact fresh_mats | reflexivity].
Defined.
